(** * The orchestra python-api client: a shallow embedding of [api.py]

    The development follows [src/api.py]:
    - the filter compiler [Api.process_filters];
    - the result shaping functions [Api.get_rows] and [Api.group_by];
    - the polling loop [Api._polling_http_request] over [Api._http_request];
    - the storage credentials cache ([Api._setup_s3_client],
      [Api._is_s3_expired], [Api.enable_s3]) and the signature-V4 signer
      [Api._s3_request].

    Python values are the JSON-shaped ones the client exchanges with the
    server: [None], booleans, integers, strings, lists and dictionaries with
    string keys.  Strings are byte strings holding the UTF-8 encoding, so
    that [str.encode()] is the identity and the order on strings is the one
    of Python (by code point).  Floats are not part of the value model. *)

From Stdlib Require Import ZArith String Ascii List Bool Lia.
From Stdlib Require Import Permutation DecimalString.
From stdpp Require Import base option list strings gmap.

Local Open Scope Z_scope.

(** ** Python values *)

#[warnings="-register-all"]
Inductive pyval : Type :=
| PNone
| PBool (b : bool)
| PInt (z : Z)
| PStr (s : string)
| PList (l : list pyval)
| PDict (d : list (string * pyval)).

(** A Python [dict] keeps its keys in insertion order: an association list
    whose keys are pairwise distinct, read by [dict_get] and written by
    [dict_set] (in place when the key is there, at the end otherwise). *)
Abbreviation pydict V := (list (string * V)).

Fixpoint dict_get {V} (key : string) (d : pydict V) : option V :=
  match d with
  | [] => None
  | (k, v) :: rest => if String.eqb k key then Some v else dict_get key rest
  end.

Fixpoint dict_set {V} (key : string) (value : V) (d : pydict V) : pydict V :=
  match d with
  | [] => [(key, value)]
  | (k, v) :: rest =>
      if String.eqb k key then (k, value) :: rest
      else (k, v) :: dict_set key value rest
  end.

Definition dict_keys {V} (d : pydict V) : list string := map fst d.

(** The exceptions the modelled code can raise. *)
Inductive pyerr : Type :=
| IndexError
| KeyError (key : string)
| TypeError
| AttributeError
| AssertionError
| ValueError
| RequestFailed (msg : string)
| UnknownError (msg : string)
| URLError (reason : string).

Inductive result (A : Type) : Type :=
| Ok (a : A)
| Err (e : pyerr).
Arguments Ok {A} a.
Arguments Err {A} e.

Notation "'do' x <- m ; k" :=
  (match m with Ok x => k | Err e => Err e end)
  (at level 10, x pattern, m at level 100, k at level 200,
   format "'[v' 'do'  x  <-  m ; '/' k ']'").

(** [bool(v)]: the truth value of a Python object. *)
Definition truthy (v : pyval) : bool :=
  match v with
  | PNone => false
  | PBool b => b
  | PInt z => negb (z =? 0)
  | PStr s => negb (String.eqb s "")
  | PList l => match l with [] => false | _ => true end
  | PDict d => match d with [] => false | _ => true end
  end.

(** [isinstance(v, list)]. *)
Definition isinstance_list (v : pyval) : bool :=
  match v with PList _ => true | _ => false end.

(** [a == b].  A boolean is the integer 0 or 1; two dictionaries are equal
    when they hold equal values under the same keys, in any order. *)
Fixpoint py_eq (a b : pyval) {struct a} : bool :=
  match a, b with
  | PNone, PNone => true
  | PBool x, PBool y => Bool.eqb x y
  | PBool x, PInt y => (if x then 1 else 0) =? y
  | PInt x, PBool y => x =? (if y then 1 else 0)
  | PInt x, PInt y => x =? y
  | PStr s, PStr t => String.eqb s t
  | PList l, PList m =>
      (fix list_eq (l m : list pyval) {struct l} : bool :=
         match l, m with
         | [], [] => true
         | x :: l', y :: m' => py_eq x y && list_eq l' m'
         | _, _ => false
         end) l m
  | PDict d, PDict e =>
      (length d =? length e)%nat &&
      (fix items_eq (d : list (string * pyval)) : bool :=
         match d with
         | [] => true
         | (k, v) :: d' =>
             match dict_get k e with
             | Some w => py_eq v w && items_eq d'
             | None => false
             end
         end) d
  | _, _ => false
  end.

(** [x in items], for a list [items]. *)
Definition py_in (x : pyval) (items : list pyval) : bool :=
  existsb (fun item => py_eq item x) items.

(** [o.get(key, default)]: only dictionaries have the method. *)
Definition py_get (o : pyval) (key : string) (default : pyval) : result pyval :=
  match o with
  | PDict d => Ok (match dict_get key d with Some v => v | None => default end)
  | _ => Err AttributeError
  end.

(** [o[key]] for a string key. *)
Definition py_getitem (o : pyval) (key : string) : result pyval :=
  match o with
  | PDict d => match dict_get key d with Some v => Ok v | None => Err (KeyError key) end
  | _ => Err TypeError
  end.

(** [o[0]]. *)
Definition py_index0 (o : pyval) : result pyval :=
  match o with
  | PList (x :: _) => Ok x
  | PList [] => Err IndexError
  | PStr (String c _) => Ok (PStr (String c EmptyString))
  | PStr EmptyString => Err IndexError
  | PDict _ => Err (KeyError "0")
  | _ => Err TypeError
  end.

Fixpoint chars (s : string) : list pyval :=
  match s with
  | EmptyString => []
  | String c rest => PStr (String c EmptyString) :: chars rest
  end.

(** The items a [for] loop over [o] visits. *)
Definition py_iter (o : pyval) : result (list pyval) :=
  match o with
  | PList l => Ok l
  | PDict d => Ok (map (fun kv => PStr (fst kv)) d)
  | PStr s => Ok (chars s)
  | _ => Err TypeError
  end.

(** ** The filter compiler: [Api.process_filters] *)

(** The two [assert] statements of [process_filters] raise [AssertionError]:
    that is the malformed-filter error of the compiler. *)
Definition MalformedFilter : pyerr := AssertionError.

Definition group_object (operator : pyval) (conditions : list pyval) : pyval :=
  PDict [("operator"%string, operator); ("conditions"%string, PList conditions)].

Definition leaf_object (path relation values : pyval) : pyval :=
  PDict [("path"%string, path); ("relation"%string, relation);
         ("values"%string, values)].

(** The body of [process_filters], on the value [filters].  The recursive
    calls are on the elements of [filters], which are lists there: the last
    case is not reached from a list of filters. *)
Fixpoint process_filters_val (v : pyval) : result pyval :=
  match v with
  | PList fallback_filters =>
      (* record which floor we iterated to. *)
      let inject := 0%nat in
      match fallback_filters with
      | [] => Err IndexError                      (* filters[0] *)
      | head :: tail =>
          (* ensure operator. *)
          let stripped := py_in head [PStr "or"; PStr "and"] in
          let operator := if stripped then head else PStr "and" in
          let filters := if stripped then tail else fallback_filters in
          (* recognize injected filters. *)
          if forallb isinstance_list filters then
            (* inject += 1, in the branch that returns. *)
            do conditions <-
              (fix each (l : list pyval) : result (list pyval) :=
                 match l with
                 | [] => Ok []
                 | flt :: rest =>
                     do result <- process_filters_val flt;
                     do conditions <- each rest;
                     Ok (result :: conditions)
                 end) filters;
            Ok (group_object operator conditions)
          else
            (* maybe operator name is equal to field name. *)
            let filters := fallback_filters in
            match filters with
            | [f0; f1; f2] =>
                if truthy f1 then
                  let condition :=
                    leaf_object f0 f1
                      (if isinstance_list f2 then f2 else PList [f2]) in
                  if (inject =? 0)%nat
                  then Ok (group_object operator [condition])
                  else Ok condition
                else Err AssertionError           (* assert filters[1] *)
            | _ => Err AssertionError             (* assert len(filters) == 3 *)
            end
      end
  | _ => Err TypeError
  end.

Definition process_filters (filters : list pyval) : result pyval :=
  process_filters_val (PList filters).

(** The loop [for flt in filters: conditions.append(process_filters(flt))]. *)
Fixpoint process_each (filters : list pyval) : result (list pyval) :=
  match filters with
  | [] => Ok []
  | flt :: rest =>
      do result <- process_filters_val flt;
      do conditions <- process_each rest;
      Ok (result :: conditions)
  end.

(** ** Result shaping: [Api.get_rows] and [Api.group_by] *)

Definition get_rows (payload : pyval) : result pyval :=
  do rows <- py_get payload "rows" PNone;
  do pages <- py_get payload "paging" (PDict []);
  do page_size <- py_get pages "page_size" PNone;
  if py_eq page_size (PInt 1) && truthy rows then py_index0 rows
  else Ok rows.

(** The inner loop of [group_by]: the first row whose id equals [id] is
    appended to the children, and the scan of the rows stops there. *)
Fixpoint scan_rows (id : pyval) (rows children : list pyval)
  : result (list pyval) :=
  match rows with
  | [] => Ok children
  | row :: rest =>
      do row_id <- py_get row "id" PNone;
      if py_eq row_id id then Ok (children ++ [row])
      else scan_rows id rest children
  end.

(** [for id in ids: for row in rows: ...]; [rows] is iterated anew for
    every id. *)
Fixpoint scan_ids (ids : list pyval) (rows : pyval) (children : list pyval)
  : result (list pyval) :=
  match ids with
  | [] => Ok children
  | id :: rest =>
      do row_list <- py_iter rows;
      do children <- scan_rows id row_list children;
      scan_ids rest rows children
  end.

Definition group_object_of (display_name : pyval) (children : list pyval) : pyval :=
  PDict [("display_name"%string, display_name); ("children"%string, PList children)].

(** [for group in groups: ...; grouped_rows.append(new_group)]. *)
Fixpoint scan_groups (groups : list pyval) (rows : pyval)
  (grouped_rows : list pyval) : result (list pyval) :=
  match groups with
  | [] => Ok grouped_rows
  | group :: rest =>
      do ids <- py_get group "ids" PNone;
      do display_name <- py_get group "display_name" PNone;
      do id_list <- py_iter ids;
      do children <- scan_ids id_list rows [];
      scan_groups rest rows (grouped_rows ++ [group_object_of display_name children])
  end.

Definition group_by (payload : pyval) : result pyval :=
  do rows <- get_rows payload;
  do groups <- py_get payload "groups" PNone;
  do group_list <- py_iter groups;
  do grouped_rows <- scan_groups group_list rows [];
  Ok (PList grouped_rows).

(** What [group_by] computes, said without loops: the children of a group
    are, for each of its ids in order, the first row carrying that id. *)
Definition row_id (row : pyval) : pyval :=
  match row with
  | PDict d => match dict_get "id" d with Some v => v | None => PNone end
  | _ => PNone
  end.

Definition first_row (id : pyval) (rows : list pyval) : option pyval :=
  List.find (fun row => py_eq (row_id row) id) rows.

Definition children_of (ids rows : list pyval) : list pyval :=
  flat_map (fun id => match first_row id rows with Some row => [row] | None => [] end) ids.

Definition group_ids (group : pyval) : list pyval :=
  match group with
  | PDict d => match dict_get "ids" d with Some (PList ids) => ids | _ => [] end
  | _ => []
  end.

Definition group_name (group : pyval) : pyval :=
  match group with
  | PDict d => match dict_get "display_name" d with Some v => v | None => PNone end
  | _ => PNone
  end.

(** The group emitted for a descriptor. *)
Definition grouped (rows : list pyval) (group : pyval) : pyval :=
  group_object_of (group_name group) (children_of (group_ids group) rows).

Definition is_dict (v : pyval) : bool :=
  match v with PDict _ => true | _ => false end.

(** A group descriptor: a dictionary whose ["ids"] entry is a list. *)
Definition is_descriptor (group : pyval) : bool :=
  match group with
  | PDict d => match dict_get "ids" d with Some (PList _) => true | _ => false end
  | _ => false
  end.

(** ** The transport and the polling loop *)

(** An HTTP response: its status code and what [Api.decode_payload] reads
    from it ([json.loads] raises [ValueError] on a body that is not JSON). *)
Record response : Type := {
  status : Z;
  decode_payload : result pyval
}.

(** What one call of [urllib.request.urlopen] does: it returns a response,
    or raises [HTTPError] (itself a response) or [URLError]. *)
Inductive urlopen_outcome : Type :=
| Returns (r : response)
| RaisesHTTPError (http_error : response)
| RaisesURLError (reason : string).

Definition _process_http_error (http_error : response) : result response :=
  do payload <- decode_payload http_error;
  do payload <- (if isinstance_list payload then py_index0 payload else Ok payload);
  if truthy payload then
    do success <- py_get payload "success" PNone;
    if truthy success then
      Err (UnknownError "This request should be failed, maybe server get confused.")
    else
      do message <- py_get payload "message" (PDict []);
      do detail <- py_get message "detail" PNone;
      match detail with
      | PStr d => Err (RequestFailed ("ERROR: " +:+ d))
      | _ => Err TypeError
      end
  else Err (UnknownError "Should has failed detail but payload is empty.").

Definition _http_request (outcome : urlopen_outcome) : result response :=
  match outcome with
  | Returns r => Ok r
  | RaisesHTTPError e => _process_http_error e
  | RaisesURLError reason => Err (URLError reason)
  end.

Definition POLLING_INTERVAL : Z := 2.

(** Where a run of the polling loop stands: it returned a response, it
    raised, or it is still looping.  [slept] lists the arguments of the
    calls of [time.sleep] made so far, oldest first. *)
Inductive polling : Type :=
| Returned (r : response) (slept : list Z)
| Raised (e : pyerr) (slept : list Z)
| StillPolling.

(** [while _is_async_task_running(request): time.sleep(POLLING_INTERVAL)],
    the transport answering its [calls]-th request by [transport calls].
    The Python loop has no bound; [fuel] bounds the number of requests the
    model follows. *)
Fixpoint polling_loop (fuel : nat) (transport : nat -> urlopen_outcome)
  (calls : nat) (slept : list Z) : polling :=
  match fuel with
  | O => StillPolling
  | S fuel' =>
      match _http_request (transport calls) with
      | Err e => Raised e slept
      | Ok response =>
          if status response =? 202
          then polling_loop fuel' transport (S calls) (slept ++ [POLLING_INTERVAL])
          else Returned response slept
      end
  end.

Definition _polling_http_request (fuel : nat) (transport : nat -> urlopen_outcome)
  : polling :=
  polling_loop fuel transport 0%nat [].

(** ** Strings of the signer *)

Definition nl : string := String (ascii_of_nat 10) EmptyString.

Definition lower_ascii (c : ascii) : ascii :=
  let n := nat_of_ascii c in
  if ((65 <=? n) && (n <=? 90))%nat then ascii_of_nat (n + 32) else c.

(** [str.lower()], on ASCII letters. *)
Fixpoint lower (s : string) : string :=
  match s with
  | EmptyString => EmptyString
  | String c rest => String (lower_ascii c) (lower rest)
  end.

(** Every maximal run of characters satisfying [in_run] becomes one space. *)
Fixpoint collapse (in_run : ascii -> bool) (s : string) : string :=
  match s with
  | EmptyString => EmptyString
  | String c rest =>
      if in_run c then
        match rest with
        | EmptyString => String " " EmptyString
        | String c' _ =>
            if in_run c' then collapse in_run rest
            else String " " (collapse in_run rest)
        end
      else String c (collapse in_run rest)
  end.

Definition is_space (c : ascii) : bool := Ascii.eqb c " ".

(** The characters Python and the C locale call whitespace. *)
Definition is_whitespace (c : ascii) : bool :=
  let n := nat_of_ascii c in
  ((n =? 32) || ((9 <=? n) && (n <=? 13)))%nat.

(** [re.compile(r"( +)").sub(" ", value)]. *)
Definition re_sub_spaces (value : string) : string := collapse is_space value.

(** [str(n)] for a length. *)
Definition str_of_nat (n : nat) : string :=
  DecimalString.NilEmpty.string_of_uint (Nat.to_uint n).

(** [sorted]: a stable insertion sort. *)
Fixpoint insert_sorted {A} (leb : A -> A -> bool) (x : A) (l : list A) : list A :=
  match l with
  | [] => [x]
  | y :: rest => if leb x y then x :: l else y :: insert_sorted leb x rest
  end.

Definition sorted_by {A} (leb : A -> A -> bool) (l : list A) : list A :=
  foldr (insert_sorted leb) [] l.

(** The order of Python on pairs of strings. *)
Definition item_leb (a b : string * string) : bool :=
  String.ltb (fst a) (fst b) || (String.eqb (fst a) (fst b) && String.leb (snd a) (snd b)).

Definition name_leb (a b : string * string) : bool := String.leb (fst a) (fst b).

(** ** The storage signer *)

(** A header value: a string, or a list or tuple of strings. *)
Inductive hval : Type :=
| HStr (s : string)
| HSeq (values : list string).

Definition hval_truthy (o : option hval) : bool :=
  match o with
  | Some (HStr s) => negb (String.eqb s "")
  | Some (HSeq l) => match l with [] => false | _ => true end
  | None => false
  end.

(** A point in time, in microseconds since the epoch (UTC). *)
Definition datetime : Type := Z.

(** What [api.py] takes from outside: the helpers it imports from [utils],
    which is not among the sources at hand, and the constants of the
    interpreter that [USER_AGENTS] quotes ([sys_platform] is
    [sys.platform.lower().capitalize()]).  [_generate_headers] stands for
    the value of [_generate_headers(None, None, None, None, False)], the
    only call there is; [_hmac_hash key data hexdigest] has the digest in
    hexadecimal when [hexdigest] is set; [_md5sum_hash] and
    [_parse_iso8601_string] may answer [None] and raise. *)
Class Env : Type := {
  _parse_iso8601_string : string -> result datetime;
  _md5sum_hash : option string -> option string;
  _sha256_hash : string -> string;
  _hmac_hash : string -> string -> bool -> string;
  _to_signer_date : datetime -> string;
  _to_amz_date : datetime -> string;
  _generate_headers : pydict hval;
  python_version : string;
  sys_platform : string;
  OPENSSL_VERSION : string
}.

(** [urllib.parse.SplitResult]. *)
Record SplitResult : Type := {
  scheme : string;
  netloc : string;
  path : string;
  query : string;
  fragment : string
}.

(** The call [self._s3_client.urlopen(method, urlunsplit(url), body=...,
    headers=..., preload_content=...)] that ends [_s3_request].  The headers
    are the pairs added to the [HTTPHeaderDict], in order. *)
Record s3_call : Type := {
  call_method : string;
  call_url : SplitResult;
  call_body : option string;
  call_headers : list (string * string);
  call_preload_content : bool
}.

Definition cred (credentials : gmap string pyval) (key : string) : result pyval :=
  match credentials !! key with
  | Some v => Ok v
  | None => Err (KeyError key)
  end.

(** A value used where the code needs a string ([re.sub] on a header
    value, ["AWS4" + secret_key], the parser of the expiration): any other
    value raises [TypeError] there. *)
Definition as_str (v : pyval) : result string :=
  match v with
  | PStr s => Ok s
  | _ => Err TypeError
  end.

(** [region.encode()]: only a string has the method. *)
Definition encode (v : pyval) : result string :=
  match v with
  | PStr s => Ok s
  | _ => Err AttributeError
  end.

(** [repr] of a string: between apostrophes, or between quotation marks
    when it holds an apostrophe and no quotation mark; the backslash, the
    enclosing mark and the control characters escaped.  The bytes of a
    character outside ASCII are kept, as Python keeps the printable
    characters. *)
Definition chr_apostrophe : ascii := ascii_of_nat 39.
Definition chr_quotation : ascii := ascii_of_nat 34.
Definition chr_backslash : ascii := ascii_of_nat 92.

Fixpoint has_char (c : ascii) (s : string) : bool :=
  match s with
  | EmptyString => false
  | String c' rest => Ascii.eqb c c' || has_char c rest
  end.

Definition hex_digit (n : nat) : ascii :=
  ascii_of_nat (if (n <? 10)%nat then 48 + n else 87 + n).

Definition escaped (c : ascii) : string := String chr_backslash (String c EmptyString).

Fixpoint repr_chars (mark : ascii) (s : string) : string :=
  match s with
  | EmptyString => EmptyString
  | String c rest =>
      let n := nat_of_ascii c in
      (if Ascii.eqb c chr_backslash || Ascii.eqb c mark then escaped c
       else if (n =? 9)%nat then escaped "t"
       else if (n =? 10)%nat then escaped "n"
       else if (n =? 13)%nat then escaped "r"
       else if ((n <? 32) || (n =? 127))%nat then
         String chr_backslash
           (String "x" (String (hex_digit (n / 16)) (String (hex_digit (n mod 16)) EmptyString)))
       else String c EmptyString)
      +:+ repr_chars mark rest
  end.

Definition repr_str (s : string) : string :=
  let mark :=
    if has_char chr_apostrophe s && negb (has_char chr_quotation s)
    then chr_quotation else chr_apostrophe in
  String mark (repr_chars mark s +:+ String mark EmptyString).

(** [repr(v)]. *)
Fixpoint py_repr (v : pyval) : string :=
  match v with
  | PNone => "None"
  | PBool b => if b then "True" else "False"
  | PInt z => DecimalString.NilZero.string_of_int (Z.to_int z)
  | PStr s => repr_str s
  | PList l => "[" +:+ String.concat ", " (map py_repr l) +:+ "]"
  | PDict d =>
      "{" +:+ String.concat ", "
                (map (fun kv => repr_str (fst kv) +:+ ": " +:+ py_repr (snd kv)) d)
      +:+ "}"
  end.

(** [str(v)], which an f-string puts in the place of [{v}]. *)
Definition py_str (v : pyval) : string :=
  match v with
  | PStr s => s
  | _ => py_repr v
  end.

Definition excluded : list string :=
  ["authorization"; "content-type"; "content-length"; "user-agent"]%string.

Definition hval_values (values : hval) : list string :=
  match values with
  | HSeq l => l
  | HStr s => [s]
  end.

(** One turn of the loop [for key, values in headers.items()]. *)
Definition canonical_step (canonical_headers : pydict string)
  (item : string * hval) : pydict string :=
  let key := lower (fst item) in
  if negb (existsb (String.eqb key) excluded) then
    dict_set key (String.concat "," (map re_sub_spaces (hval_values (snd item))))
      canonical_headers
  else canonical_headers.

(** The dictionary [canonical_headers], once sorted. *)
Definition canonical_headers_of (headers : pydict hval) : pydict string :=
  sorted_by item_leb (fold_left canonical_step headers []).

Definition header_line (item : string * string) : string :=
  fst item +:+ ":" +:+ snd item.

Definition http_headers_of (headers : pydict hval) : list (string * string) :=
  flat_map (fun item => map (fun val => (fst item, val)) (hval_values (snd item)))
    headers.

Section Signer.
Context {env : Env}.

Definition __VERSION__ : string := "0.0.2".

Definition USER_AGENTS : list string :=
  ["Mozilla/5.0 (Windows NT 10.0; Win64; x64; rv:92.0) Gecko/20100101 Firefox/92.0";
   "orchestra-api (" +:+ __VERSION__ +:+ ")";
   "Python " +:+ python_version +:+ " (" +:+ sys_platform +:+ ")";
   "ssl " +:+ OPENSSL_VERSION +:+ " (no-validate)"]%string.

(** The headers of the request before it is signed. *)
Definition s3_headers (end_point session_token : string) (body : option string)
  (date : datetime) : pydict hval :=
  let headers := _generate_headers in
  let headers := dict_set "Content-Type" (HStr "application/octet-stream") headers in
  let md5sum_added := dict_get "Content-MD5" headers in
  let headers := dict_set "Host" (HStr end_point) headers in
  let headers := dict_set "User-Agent" (HStr (String.concat "; " USER_AGENTS)) headers in
  let headers :=
    match body with
    | Some (String c rest) =>
        dict_set "Content-Length" (HStr (str_of_nat (String.length (String c rest)))) headers
    | _ => headers
    end in
  let md5sum := if hval_truthy md5sum_added then None else _md5sum_hash body in
  let headers :=
    match md5sum with
    | Some (String c rest) => dict_set "Content-MD5" (HStr (String c rest)) headers
    | _ => headers
    end in
  let sha256 := "UNSIGNED-PAYLOAD"%string in
  let headers := dict_set "x-amz-content-sha256" (HStr sha256) headers in
  let headers := dict_set "X-Amz-Security-Token" (HStr session_token) headers in
  dict_set "x-amz-date" (HStr (_to_amz_date date)) headers.

Definition scope_of (date : datetime) (region service_name : string) : string :=
  _to_signer_date date +:+ "/" +:+ region +:+ "/" +:+ service_name +:+ "/aws4_request".

Definition canonical_request_of (method url_path : string) (headers : pydict hval)
  : string :=
  let canonical_headers := canonical_headers_of headers in
  let signed_headers := String.concat ";" (dict_keys canonical_headers) in
  let canonical_headers := String.concat nl (map header_line canonical_headers) in
  let canonical_query_string := ""%string in
  let content_sha256 := "UNSIGNED-PAYLOAD"%string in
  method +:+ nl +:+ url_path +:+ nl +:+ canonical_query_string +:+ nl
  +:+ canonical_headers +:+ nl +:+ nl +:+ signed_headers +:+ nl +:+ content_sha256.

Definition string_to_sign_of (date : datetime) (scope canonical_request : string)
  : string :=
  let canonical_request_hash := _sha256_hash canonical_request in
  "AWS4-HMAC-SHA256" +:+ nl +:+ _to_amz_date date +:+ nl +:+ scope +:+ nl
  +:+ canonical_request_hash.

Definition signing_key_of (secret_key region service_name : string) (date : datetime)
  : string :=
  let date_key := _hmac_hash ("AWS4" +:+ secret_key) (_to_signer_date date) false in
  let date_region_key := _hmac_hash date_key region false in
  let date_region_service_key := _hmac_hash date_region_key service_name false in
  _hmac_hash date_region_service_key "aws4_request" false.

Definition authorization_of (access_key scope signed_headers signature : string)
  : string :=
  "AWS4-HMAC-SHA256 Credential=" +:+ access_key +:+ "/" +:+ scope +:+ ", "
  +:+ "SignedHeaders=" +:+ signed_headers +:+ ", Signature=" +:+ signature.

(** [Api._s3_request], up to the call of the storage transport.  [file_object]
    is what [file_object.read()] yields, when there is a file object;
    [date] is the clock read by [datetime.utcnow()].  The bucket and the
    access key only go through f-strings, which take any value.  The end
    point and the session token are header values, which [re.sub] reads as
    strings, and the secret key is appended to ["AWS4"]: another value
    raises [TypeError] there (a list of strings, which the loop over the
    headers takes as a header of several values, is left out).  The region
    is encoded after that. *)
Definition _s3_request (credentials : gmap string pyval) (method object_name : string)
  (file_object : option string) (preload_content : bool) (date : datetime)
  : result s3_call :=
  let service_name := "s3"%string in
  do end_point <- cred credentials "EndPoint";
  do region <- cred credentials "Region";
  do bucket <- cred credentials "Bucket";
  do access_key <- cred credentials "AccessKeyId";
  do secret_key <- cred credentials "SecretAccessKey";
  do secure <- cred credentials "Secure";
  do session_token <- cred credentials "SessionToken";
  let bucket := py_str bucket in
  let access_key := py_str access_key in
  do end_point <- as_str end_point;
  do session_token <- as_str session_token;
  do secret_key <- as_str secret_key;
  do region <- encode region;
  let url :=
    {| scheme := if truthy secure then "https" else "http";
       netloc := end_point;
       path := "/" +:+ bucket +:+ "/" +:+ object_name;
       query := "";
       fragment := "" |} in
  let body := file_object in
  let headers := s3_headers (netloc url) session_token body date in
  let scope := scope_of date region service_name in
  let signed_headers := String.concat ";" (dict_keys (canonical_headers_of headers)) in
  let canonical_request := canonical_request_of method (path url) headers in
  let string_to_sign := string_to_sign_of date scope canonical_request in
  let signing_key := signing_key_of secret_key region service_name date in
  let signature := _hmac_hash signing_key string_to_sign true in
  let authorization := authorization_of access_key scope signed_headers signature in
  let headers := dict_set "Authorization" (HStr authorization) headers in
  Ok {| call_method := method;
        call_url := url;
        call_body := body;
        call_headers := http_headers_of headers;
        call_preload_content := preload_content |}.

End Signer.

(** ** The credentials cache *)

(** A method of [Api] that reads and writes [self._s3_credentials]: from
    the dictionary before the call to the outcome and the dictionary after
    it.  An exception leaves the writes made before it in place. *)
Definition Method (A : Type) : Type :=
  gmap string pyval -> result A * gmap string pyval.

Definition ret {A} (a : A) : Method A := fun c => (Ok a, c).

Definition lift {A} (r : result A) : Method A := fun c => (r, c).

Definition bind {A B} (m : Method A) (k : A -> Method B) : Method B :=
  fun c =>
    match m c with
    | (Ok a, c') => k a c'
    | (Err e, c') => (Err e, c')
    end.

Notation "'run' x <- m ; k" := (bind m (fun x => k))
  (at level 10, x name, m at level 100, k at level 200, only parsing).
Notation "m ;; k" := (bind m (fun _ => k))
  (at level 100, k at level 200, right associativity, only parsing).

(** [self._s3_credentials[key] = value], where evaluating [value] may raise. *)
Definition assign (key : string) (value : result pyval) : Method unit :=
  fun c =>
    match value with
    | Ok v => (Ok tt, <[key := v]> c)
    | Err e => (Err e, c)
    end.

Definition ack_item (data : pyval) (key : string) : result pyval :=
  do ack <- py_getitem data "ack";
  py_getitem ack key.

(** The assignments of [_setup_s3_client]; the connection pool it creates
    afterwards is the transport, outside the model. *)
Definition _setup_s3_client (data : pyval) : Method unit :=
  assign "EndPoint" (py_getitem data "EndPoint") ;;
  assign "Secure" (py_getitem data "Secure") ;;
  assign "Bucket" (py_getitem data "Bucket") ;;
  assign "Region" (py_getitem data "Region") ;;
  assign "AccessKeyId" (ack_item data "AccessKeyId") ;;
  assign "SecretAccessKey" (ack_item data "SecretAccessKey") ;;
  assign "SessionToken" (ack_item data "SessionToken") ;;
  (* utc time. *)
  assign "Expiration" (ack_item data "Expiration").

Section Cache.
Context {env : Env}.

Definition _is_s3_expired (now : datetime) : Method bool :=
  fun c =>
    match c !! "Expiration" with
    | None => (Ok true, c)
    | Some expiration =>
        if negb (truthy expiration) then (Ok true, c)
        else
          (do expiration <- as_str expiration;
           do dt_expiration <- _parse_iso8601_string expiration;
           Ok (dt_expiration <? now), c)
    end.

(** [ack] is what the transport does with the request to the [/cloud/ack]
    endpoint (the CSRF token the request carries is taken to be cached). *)
Definition _get_s3_security_token (ack : urlopen_outcome) : Method pyval :=
  run response <- lift (_http_request ack);
  run payload <- lift (decode_payload response);
  _setup_s3_client payload ;;
  ret payload.

Definition enable_s3 (now : datetime) (ack : urlopen_outcome) : Method unit :=
  run expired <- _is_s3_expired now;
  if expired then (_get_s3_security_token ack ;; ret tt) else ret tt.

Definition _s3_upload (object_name file : string) (date : datetime) : Method s3_call :=
  fun c => (_s3_request c "PUT" object_name (Some file) true date, c).

Definition _s3_download_request (object_name : string) (date : datetime)
  : Method s3_call :=
  fun c => (_s3_request c "GET" object_name None false date, c).

(** The [try] block that opens [upload_attachment]:
    [self.enable_s3(); self._s3_upload(url, path)]. *)
Definition upload_to_storage (now : datetime) (ack : urlopen_outcome)
  (url file : string) (date : datetime) : Method s3_call :=
  enable_s3 now ack ;;
  _s3_upload url file date.

End Cache.

(** ** The signature computation the specification describes

    Written after the words of the specification, step by step, over the
    headers of the request, to be compared with what [_s3_request]
    computes.  [in_run] says which characters make up the runs that are
    collapsed in header values. *)
Section Reference.
Context {env : Env}.
Variable in_run : ascii -> bool.

Definition HMAC (key data : string) : string := _hmac_hash key data false.
Definition hex_HMAC (key data : string) : string := _hmac_hash key data true.
Definition SHA256_hex (data : string) : string := _sha256_hash data.

Definition sigv4_payload_hash : string := "UNSIGNED-PAYLOAD".

Definition sigv4_canonical_value (v : hval) : string :=
  String.concat "," (map (collapse in_run) (hval_values v)).

Definition sigv4_entries (headers : pydict hval) : list (string * string) :=
  let lowered := map (fun item => (lower (fst item), snd item)) headers in
  let kept :=
    List.filter (fun item => negb (existsb (String.eqb (fst item)) excluded)) lowered in
  sorted_by name_leb (map (fun item => (fst item, sigv4_canonical_value (snd item))) kept).

Definition sigv4_canonical_headers (headers : pydict hval) : string :=
  String.concat nl (map (fun item => fst item +:+ ":" +:+ snd item) (sigv4_entries headers)).

Definition sigv4_signed_headers (headers : pydict hval) : string :=
  String.concat ";" (map fst (sigv4_entries headers)).

Definition sigv4_canonical_request (method path : string) (headers : pydict hval)
  : string :=
  method +:+ nl +:+ path +:+ nl +:+ "" +:+ nl +:+ sigv4_canonical_headers headers
  +:+ nl +:+ nl +:+ sigv4_signed_headers headers +:+ nl +:+ sigv4_payload_hash.

Definition sigv4_scope (date : datetime) (region : string) : string :=
  _to_signer_date date +:+ "/" +:+ region +:+ "/s3/aws4_request".

Definition sigv4_string_to_sign (date : datetime) (region canonical_request : string)
  : string :=
  "AWS4-HMAC-SHA256" +:+ nl +:+ _to_amz_date date +:+ nl +:+ sigv4_scope date region
  +:+ nl +:+ SHA256_hex canonical_request.

Definition sigv4_signing_key (secret_key region : string) (date : datetime) : string :=
  let k0 := ("AWS4" +:+ secret_key)%string in
  let k1 := HMAC k0 (_to_signer_date date) in
  let k2 := HMAC k1 region in
  let k3 := HMAC k2 "s3" in
  HMAC k3 "aws4_request".

Definition sigv4_signature (secret_key region method path : string)
  (headers : pydict hval) (date : datetime) : string :=
  hex_HMAC (sigv4_signing_key secret_key region date)
    (sigv4_string_to_sign date region (sigv4_canonical_request method path headers)).

Definition sigv4_authorization (access_key secret_key region method path : string)
  (headers : pydict hval) (date : datetime) : string :=
  "AWS4-HMAC-SHA256 Credential=" +:+ access_key +:+ "/" +:+ sigv4_scope date region
  +:+ ", SignedHeaders=" +:+ sigv4_signed_headers headers
  +:+ ", Signature=" +:+ sigv4_signature secret_key region method path headers date.

End Reference.

(** ** Notions the statements use *)

(** The filters [process_filters] looks at after the leading token. *)
Definition rest_of (expr : list pyval) : list pyval :=
  match expr with
  | head :: tail => if py_in head [PStr "or"; PStr "and"] then tail else expr
  | [] => []
  end.

(** The expression is not empty and is not read as a list of
    sub-expressions: [process_filters] treats it as one leaf. *)
Definition reaches_leaf (expr : list pyval) : bool :=
  match expr with
  | [] => false
  | _ :: _ => negb (forallb isinstance_list (rest_of expr))
  end.

(** The triple [[field, relation, value]]. *)
Definition triple (t : string * string * pyval) : pyval :=
  let '(field, relation, value) := t in
  PList [PStr field; PStr relation; value].

Definition values_of (value : pyval) : pyval :=
  if isinstance_list value then value else PList [value].

Definition leaf_of (t : string * string * pyval) : pyval :=
  let '(field, relation, value) := t in
  leaf_object (PStr field) (PStr relation) (values_of value).

(** What a triple compiles to on its own: its leaf, inside a group whose
    operator is ["and"], or the field name when that is ["or"] or ["and"]. *)
Definition wrapped_leaf_of (t : string * string * pyval) : pyval :=
  let '(field, relation, value) := t in
  group_object
    (if String.eqb field "or" || String.eqb field "and" then PStr field else PStr "and")
    [leaf_of t].

Definition relation_of (t : string * string * pyval) : string := snd (fst t).

(** The page size a payload reports, [None] when it reports none. *)
Definition page_size_of (payload : pydict pyval) : pyval :=
  match dict_get "paging" payload with
  | Some (PDict paging) =>
      match dict_get "page_size" paging with
      | Some v => v
      | None => PNone
      end
  | _ => PNone
  end.

Definition children_list (group : pyval) : list pyval :=
  match group with
  | PDict d => match dict_get "children" d with Some (PList c) => c | _ => [] end
  | _ => []
  end.

(** No row is among the children of two of the groups [group_by] emits. *)
Definition rows_assigned_once (payload : pyval) : Prop :=
  forall out, group_by payload = Ok (PList out) ->
  forall (i j : nat) gi gj row, i <> j ->
    out !! i = Some gi -> out !! j = Some gj ->
    In row (children_list gi) -> ~ In row (children_list gj).

(** The credentials record of the storage tier. *)
Record storage_credentials : Type := {
  endpoint : string;
  secure : pyval;
  bucket : string;
  region : string;
  access_key : string;
  secret_key : string;
  session_token : string
}.

(** The cache holds the record [c] (and whatever expiration). *)
Definition stores (credentials : gmap string pyval) (c : storage_credentials) : Prop :=
  credentials !! "EndPoint" = Some (PStr (endpoint c)) /\
  credentials !! "Secure" = Some (secure c) /\
  credentials !! "Bucket" = Some (PStr (bucket c)) /\
  credentials !! "Region" = Some (PStr (region c)) /\
  credentials !! "AccessKeyId" = Some (PStr (access_key c)) /\
  credentials !! "SecretAccessKey" = Some (PStr (secret_key c)) /\
  credentials !! "SessionToken" = Some (PStr (session_token c)).

Definition object_path (c : storage_credentials) (object_name : string) : string :=
  "/" +:+ bucket c +:+ "/" +:+ object_name.

(** The header names of a request are compared without regard to case: no
    two of them are equal once lower-cased. *)
Definition distinct_names (headers : pydict hval) : Prop :=
  NoDup (map lower (dict_keys headers)).

(** The entry of the canonical headers a header gives, and whether it gives
    one. *)
Definition canonical_entry (item : string * hval) : string * string :=
  (lower (fst item),
   String.concat "," (map re_sub_spaces (hval_values (snd item)))).

Definition kept (item : string * hval) : bool :=
  negb (existsb (String.eqb (lower (fst item))) excluded).

Definition tab : string := String (ascii_of_nat 9) EmptyString.

(** The value of a header in the canonical headers. *)
Definition canonical_value (v : hval) : string :=
  String.concat "," (map re_sub_spaces (hval_values v)).

(** The answer of the [/cloud/ack] endpoint that carries the record [c] and
    the expiration [expiration]. *)
Definition ack_payload (c : storage_credentials) (expiration : string) : pyval :=
  PDict [("EndPoint", PStr (endpoint c)); ("Secure", secure c);
         ("Bucket", PStr (bucket c)); ("Region", PStr (region c));
         ("ack", PDict [("AccessKeyId", PStr (access_key c));
                        ("SecretAccessKey", PStr (secret_key c));
                        ("SessionToken", PStr (session_token c));
                        ("Expiration", PStr expiration)])]%string.

(** The cache once [_setup_s3_client] has stored that answer. *)
Definition refreshed (credentials : gmap string pyval) (c : storage_credentials)
  (expiration : string) : gmap string pyval :=
  <["Expiration" := PStr expiration]>
  (<["SessionToken" := PStr (session_token c)]>
  (<["SecretAccessKey" := PStr (secret_key c)]>
  (<["AccessKeyId" := PStr (access_key c)]>
  (<["Region" := PStr (region c)]>
  (<["Bucket" := PStr (bucket c)]>
  (<["Secure" := secure c]>
  (<["EndPoint" := PStr (endpoint c)]> credentials))))))).

Section Staleness.
Context {env : Env}.

(** The cache has no expiration, or one strictly before [now]. *)
Definition stale (credentials : gmap string pyval) (now : datetime) : Prop :=
  credentials !! "Expiration" = None \/
  exists expiration t,
    credentials !! "Expiration" = Some (PStr expiration) /\
    expiration <> ""%string /\
    _parse_iso8601_string expiration = Ok t /\ t < now.

(** The cache has an expiration strictly after [now]. *)
Definition fresh (credentials : gmap string pyval) (now : datetime) : Prop :=
  exists expiration t,
    credentials !! "Expiration" = Some (PStr expiration) /\
    expiration <> ""%string /\
    _parse_iso8601_string expiration = Ok t /\ now < t.

End Staleness.

(** ** A test double of the environment

    Dates are computed (proleptic Gregorian calendar, timestamps of the form
    [YYYY-MM-DDTHH:MM:SSZ]); digests are kept symbolic, so that a signature
    shows what it was computed from.  The theorems below hold for every
    environment; the double serves to run the model on concrete requests. *)
Module Double.

Definition civil_of_days (z : Z) : Z * Z * Z :=
  let z := z + 719468 in
  let era := z / 146097 in
  let doe := z - era * 146097 in
  let yoe := (doe - doe / 1460 + doe / 36524 - doe / 146096) / 365 in
  let doy := doe - (365 * yoe + yoe / 4 - yoe / 100) in
  let mp := (5 * doy + 2) / 153 in
  let d := doy - (153 * mp + 2) / 5 + 1 in
  let m := if mp <? 10 then mp + 3 else mp - 9 in
  (yoe + era * 400 + (if m <=? 2 then 1 else 0), m, d).

Definition days_of_civil (y m d : Z) : Z :=
  let y := if m <=? 2 then y - 1 else y in
  let era := y / 400 in
  let yoe := y - era * 400 in
  let doy := (153 * (if 2 <? m then m - 3 else m + 9) + 2) / 5 + d - 1 in
  let doe := yoe * 365 + yoe / 4 - yoe / 100 + doy in
  era * 146097 + doe - 719468.

Definition digit (n : Z) : ascii := ascii_of_nat (48 + Z.to_nat (n mod 10)).

Definition two (n : Z) : string :=
  String (digit (n / 10)) (String (digit n) EmptyString).

Definition four (n : Z) : string := two (n / 100) +:+ two n.

Definition microsecond : Z := 1000000.

Definition to_signer_date (t : datetime) : string :=
  let '(y, m, d) := civil_of_days (t / (86400 * microsecond)) in
  four y +:+ two m +:+ two d.

Definition to_amz_date (t : datetime) : string :=
  let s := (t / microsecond) mod 86400 in
  to_signer_date t +:+ "T" +:+ two (s / 3600) +:+ two (s / 60 mod 60) +:+ two (s mod 60)
  +:+ "Z".

Definition digit_value (c : ascii) : option Z :=
  let n := nat_of_ascii c in
  if ((48 <=? n) && (n <=? 57))%nat then Some (Z.of_nat n - 48) else None.

Fixpoint number (acc : Z) (cs : list ascii) : option Z :=
  match cs with
  | [] => Some acc
  | c :: rest =>
      match digit_value c with
      | Some v => number (10 * acc + v) rest
      | None => None
      end
  end.

Definition parse_iso8601_string (s : string) : result datetime :=
  match list_ascii_of_string s with
  | [y1; y2; y3; y4; "-"; m1; m2; "-"; d1; d2; "T"; h1; h2; ":"; n1; n2; ":"; s1; s2; "Z"]%char =>
      match number 0 [y1; y2; y3; y4], number 0 [m1; m2], number 0 [d1; d2],
            number 0 [h1; h2], number 0 [n1; n2], number 0 [s1; s2] with
      | Some y, Some m, Some d, Some h, Some n, Some sec =>
          Ok ((days_of_civil y m d * 86400 + h * 3600 + n * 60 + sec) * microsecond)
      | _, _, _, _, _, _ => Err ValueError
      end
  | _ => Err ValueError
  end.

Definition md5sum_hash (data : option string) : option string :=
  match data with
  | Some d => Some ("md5<" +:+ d +:+ ">")%string
  | None => None
  end.

Definition sha256_hash (data : string) : string := "sha256<" +:+ data +:+ ">".

Definition hmac_hash (key data : string) (hexdigest : bool) : string :=
  (if hexdigest then "hex" else "raw") +:+ "<" +:+ key +:+ "|" +:+ data +:+ ">".

#[export] Instance env : Env := {|
  _parse_iso8601_string := parse_iso8601_string;
  _md5sum_hash := md5sum_hash;
  _sha256_hash := sha256_hash;
  _hmac_hash := hmac_hash;
  _to_signer_date := to_signer_date;
  _to_amz_date := to_amz_date;
  _generate_headers := [];
  python_version := "3.9.7";
  sys_platform := "Linux";
  OPENSSL_VERSION := "OpenSSL 1.1.1l  24 Aug 2021"
|}.

(** Credentials as [_setup_s3_client] stores them. *)
Definition credentials (session_token expiration : string) : gmap string pyval :=
  <["EndPoint" := PStr "oss.example.com"]>
  (<["Secure" := PBool true]>
  (<["Bucket" := PStr "bucket"]>
  (<["Region" := PStr "us-east-1"]>
  (<["AccessKeyId" := PStr "AKIDEXAMPLE"]>
  (<["SecretAccessKey" := PStr "secret"]>
  (<["SessionToken" := PStr session_token]>
  (<["Expiration" := PStr expiration]> ∅))))))).

(** The record these credentials hold. *)
Definition record (session_token : string) : storage_credentials := {|
  endpoint := "oss.example.com";
  secure := PBool true;
  bucket := "bucket";
  region := "us-east-1";
  access_key := "AKIDEXAMPLE";
  secret_key := "secret";
  session_token := session_token
|}.

(** 2021-01-01T00:00:00Z. *)
Definition new_year_2021 : datetime := 1609459200 * microsecond.

Definition hour : Z := 3600 * microsecond.

End Double.


(** ** The request bodies: [Api.build_payload] and [Api.build_read_payload] *)

Definition build_payload (request_type entity_type fields data : pyval) : pyval :=
  let payload :=
    [("request_type"%string, request_type); ("entity_type"%string, entity_type)] in
  let payload := if truthy fields then dict_set "columns" fields payload else payload in
  let payload := if truthy data then dict_set "data" data payload else payload in
  PList [PDict payload].

(** [self.process_filters(filters)] on any value [filters].  Indexing a
    string gives its characters, and a one-character head is no operator
    token, so that a string is compiled as the list of its characters; a
    dictionary has no key [0]; the other values cannot be indexed. *)
Definition process_filters_of (filters : pyval) : result pyval :=
  match filters with
  | PList l => process_filters l
  | PStr s => process_filters (chars s)
  | PDict _ => Err (KeyError "0")
  | _ => Err TypeError
  end.

Definition get_pages (pages : pyval) : pyval := pages.

Definition build_read_payload
  (entity_type fields filters sorts groups pages additional_filters : pyval)
  : result pyval :=
  let payload :=
    [("request_type"%string, PStr "read"); ("entity_type"%string, entity_type)] in
  let payload := if truthy fields then dict_set "columns" fields payload else payload in
  do payload <-
    (if truthy filters then
       do compiled <- process_filters_of filters;
       Ok (dict_set "filters" compiled payload)
     else Ok payload);
  let payload := if truthy sorts then dict_set "sorts" sorts payload else payload in
  let payload := if truthy groups then dict_set "grouping" groups payload else payload in
  let payload := dict_set "paging" (get_pages pages) payload in
  let payload :=
    if truthy additional_filters
    then dict_set "filter_setting" additional_filters payload else payload in
  Ok (PList [PDict payload]).

(** ** Reading the answers of the server *)

(** [key in o]: a key of a dictionary, an element of a list, a substring of
    a string. *)
Definition py_contains (key : string) (o : pyval) : result bool :=
  match o with
  | PDict d => Ok (match dict_get key d with Some _ => true | None => false end)
  | PList l => Ok (py_in (PStr key) l)
  | PStr s => Ok (match String.index 0 key s with Some _ => true | None => false end)
  | _ => Err TypeError
  end.

Section Answers.
(** [json.dumps], of the standard library. *)
Variable json_dumps : pyval -> string.

Definition _extract_message (message : pyval) : pyval :=
  match message with
  | PStr _ => message
  | PDict d =>
      match dict_get "detail" d with
      | Some detail => if truthy detail then detail else PStr ""
      | None => PStr (json_dumps message)
      end
  | _ => PStr (json_dumps message)
  end.

(** [raise exceptions.RequestFailed("Request Failed: " + self._extract_message(msg))];
    the concatenation needs a string. *)
Definition raise_request_failed {A} (msg : pyval) : result A :=
  match _extract_message msg with
  | PStr text => Err (RequestFailed ("Request Failed: " +:+ text))
  | _ => Err TypeError
  end.

Definition _extract_payload (payload : pyval) : result pyval :=
  (* hard code: actually we should extract every items in payload. *)
  do payload <- py_index0 payload;
  if truthy payload then
    do success <- py_getitem payload "success";
    if truthy success then
      do groups <- py_get payload "groups" PNone;
      if truthy groups then group_by payload else get_rows payload
    else
      do msg <- py_get payload "message" PNone;
      raise_request_failed msg
  else Err (UnknownError "Should has failed detail but payload is empty.").

Definition _processs_async_payload (payload : pyval) : result pyval :=
  do success <- py_getitem payload "success";
  if truthy success then py_getitem payload "task_id"
  else
    do msg <- py_get payload "message" PNone;
    raise_request_failed msg.

Definition _process_response (async_mode : bool) (response : response)
  : result pyval :=
  do payload <- decode_payload response;
  if async_mode then _processs_async_payload payload
  else _extract_payload payload.

Definition _process_async_task_response (response : response) : result pyval :=
  do payload <- decode_payload response;
  do success <- py_getitem payload "success";
  if negb (truthy success) then
    do msg <- py_get payload "message" PNone;
    raise_request_failed msg
  else
    do task_payload <- py_getitem payload "data";
    _extract_payload task_payload.

(** [Api.resolve_async_task]: one request, no loop. *)
Definition resolve_async_task (outcome : urlopen_outcome) : result pyval :=
  do response <- _http_request outcome;
  _process_async_task_response response.

(** How a call of [Api.polling_async_task] stands once [fuel] requests have
    been followed: it ended, with a result or an exception, after the
    sleeps listed, or it is still polling. *)
Inductive polled : Type :=
| Ended (outcome : result pyval) (slept : list Z)
| NotEnded.

Definition polling_async_task (fuel : nat) (transport : nat -> urlopen_outcome)
  : polled :=
  match _polling_http_request fuel transport with
  | Returned response slept => Ended (_process_async_task_response response) slept
  | Raised e slept => Ended (Err e) slept
  | StillPolling => NotEnded
  end.

(** ** The requests: [Api.read], [Api.create], [Api.update], [Api.delete]
    and the schema requests *)

(** What reaches the server with a CRUD request: the payloads, before
    [json.dumps], and the asynchronous flag.  (The request id is random.) *)
Record crud_request : Type := {
  requests : pyval;
  async : bool
}.

(** The server and the transport: what [urlopen] does with a request (the
    CSRF token the request carries is taken to be cached). *)
Definition server : Type := crud_request -> urlopen_outcome.

Definition _send_request (srv : server) (async_mode : bool) (payload : pyval)
  : result pyval :=
  let request := {| requests := payload; async := async_mode |} in
  do response <- _http_request (srv request);
  _process_response async_mode response.

Definition read (srv : server) (async_mode : bool)
  (entity_type fields filters sorts groups pages additional_filters : pyval)
  : result pyval :=
  do requests <-
    build_read_payload entity_type fields filters sorts groups pages additional_filters;
  _send_request srv async_mode requests.

(** The request types of [create], [update] and [delete], which have the
    same body: [build_payload(<type>, entity_type, None, data)], sent. *)
Inductive crud_verb : Type := Create | Update | Delete.

Definition verb_name (verb : crud_verb) : string :=
  match verb with
  | Create => "create"
  | Update => "update"
  | Delete => "delete"
  end.

Definition crud (verb : crud_verb) (srv : server) (async_mode : bool)
  (entity_type data : pyval) : result pyval :=
  let payload := build_payload (PStr (verb_name verb)) entity_type PNone data in
  _send_request srv async_mode payload.

(** [Api._request_schema], called with the names of [create], [update] and
    [delete] only.  The second component is [self._async_mode] after the
    call. *)
Definition _request_schema (srv : server) (request_type : crud_verb)
  (entity_type data : pyval) (async_mode : bool) : result pyval * bool :=
  if negb (isinstance_list data) then (Err AssertionError, async_mode)
  else if negb (truthy data) then (Err AssertionError, async_mode)
  else if negb (py_in entity_type [PStr "EntityType"; PStr "Field"])
  then (Err AssertionError, async_mode)
  else
    (* self.set_async_mode(True) *)
    let async_mode := true in
    match crud request_type srv async_mode entity_type data with
    | Err e => (Err e, async_mode)
    | Ok task_id =>
        (* self.set_async_mode(False) *)
        (Ok task_id, false)
    end.

(** [all([<test on d> for d in data])]: the list is built before [all]
    looks at it. *)
Fixpoint tests (test : pyval -> result bool) (items : list pyval)
  : result (list bool) :=
  match items with
  | [] => Ok []
  | d :: rest =>
      do b <- test d;
      do bs <- tests test rest;
      Ok (b :: bs)
  end.

Definition assert_all (test : pyval -> result bool) (data : pyval) : result unit :=
  do items <- py_iter data;
  do bs <- tests test items;
  if forallb (fun b => b) bs then Ok tt else Err AssertionError.

(** A schema request: the assertion on the items of [data], then
    [self._request_schema(<request type>, <entity type>, data)]. *)
Definition schema_request (test : pyval -> result bool) (srv : server)
  (request_type : crud_verb) (entity_type : string) (data : pyval)
  (async_mode : bool) : result pyval * bool :=
  match assert_all test data with
  | Err e => (Err e, async_mode)
  | Ok _ => _request_schema srv request_type (PStr entity_type) data async_mode
  end.

Definition both (a b : pyval -> result bool) (d : pyval) : result bool :=
  do x <- a d;
  if x then b d else Ok false.

Definition either (a b : pyval -> result bool) (d : pyval) : result bool :=
  do x <- a d;
  if x then Ok true else b d.

Definition create_entity_type (srv : server) (data : pyval) (async_mode : bool) :=
  schema_request (py_contains "name") srv Create "EntityType" data async_mode.

Definition update_entity_type (srv : server) (data : pyval) (async_mode : bool) :=
  schema_request (either (py_contains "id") (py_contains "name"))
    srv Update "EntityType" data async_mode.

Definition delete_entity_type (srv : server) (data : pyval) (async_mode : bool) :=
  schema_request (py_contains "id") srv Delete "EntityType" data async_mode.

Definition create_field (srv : server) (data : pyval) (async_mode : bool) :=
  schema_request
    (both (py_contains "entity_type")
       (both (py_contains "name") (py_contains "data_type")))
    srv Create "Field" data async_mode.

Definition update_field (srv : server) (data : pyval) (async_mode : bool) :=
  schema_request
    (either (both (py_contains "entity_type") (py_contains "name"))
       (py_contains "id"))
    srv Update "Field" data async_mode.

Definition delete_field (srv : server) (data : pyval) (async_mode : bool) :=
  schema_request (py_contains "id") srv Delete "Field" data async_mode.

End Answers.

(** ** The shape of a compiled filter *)

Definition is_operator (v : pyval) : bool :=
  match v with
  | PStr s => String.eqb s "or" || String.eqb s "and"
  | _ => false
  end.

(** A leaf object: path, relation, values in this order, with a relation
    that is true and a list of values. *)
Definition is_leaf (v : pyval) : bool :=
  match v with
  | PDict [(k1, _); (k2, relation); (k3, PList _)] =>
      String.eqb k1 "path" && String.eqb k2 "relation" && String.eqb k3 "values"
      && truthy relation
  | _ => false
  end.

(** A group object whose operator is ["or"] or ["and"] and whose conditions
    are one leaf, or groups of the same shape. *)
Fixpoint well_grouped (v : pyval) : bool :=
  match v with
  | PDict [(k1, operator); (k2, PList conditions)] =>
      String.eqb k1 "operator" && String.eqb k2 "conditions"
      && is_operator operator
      && ((match conditions with [c] => is_leaf c | _ => false end)
          || (fix all (l : list pyval) : bool :=
                match l with
                | [] => true
                | c :: rest => well_grouped c && all rest
                end) conditions)
  | _ => false
  end.

(** Induction on a value, with the elements of a list at hand. *)
Section PyvalInduction.
Variable P : pyval -> Prop.
Hypothesis HNone : P PNone.
Hypothesis HBool : forall b, P (PBool b).
Hypothesis HInt : forall z, P (PInt z).
Hypothesis HStr : forall s, P (PStr s).
Hypothesis HList : forall l, Forall P l -> P (PList l).
Hypothesis HDict : forall d, P (PDict d).

Fixpoint pyval_list_ind (v : pyval) : P v :=
  match v with
  | PNone => HNone
  | PBool b => HBool b
  | PInt z => HInt z
  | PStr s => HStr s
  | PList l =>
      HList l
        ((fix each (l : list pyval) : Forall P l :=
            match l with
            | [] => List.Forall_nil P
            | x :: rest => List.Forall_cons P x rest (pyval_list_ind x) (each rest)
            end) l)
  | PDict d => HDict d
  end.

End PyvalInduction.

(** ** A test double of [json.dumps]

    Compact enough to read: [null], [true], [false], integers in decimal,
    strings between quotes with the quote and the backslash escaped, lists
    and objects with the separators of Python. *)
Definition quote : ascii := ascii_of_nat 34.
Definition backslash : ascii := ascii_of_nat 92.

Fixpoint escape (s : string) : string :=
  match s with
  | EmptyString => EmptyString
  | String c rest =>
      if Ascii.eqb c quote || Ascii.eqb c backslash
      then String backslash (String c (escape rest))
      else String c (escape rest)
  end.

Definition quoted (s : string) : string :=
  String quote (escape s +:+ String quote EmptyString).

Fixpoint json_dumps_double (v : pyval) : string :=
  match v with
  | PNone => "null"
  | PBool b => if b then "true" else "false"
  | PInt z => DecimalString.NilZero.string_of_int (Z.to_int z)
  | PStr s => quoted s
  | PList l => "[" +:+ String.concat ", " (map json_dumps_double l) +:+ "]"
  | PDict d =>
      "{" +:+ String.concat ", "
                (map (fun kv => quoted (fst kv) +:+ ": " +:+ json_dumps_double (snd kv)) d)
      +:+ "}"
  end.

(** ** Notions of the statements on the signer *)

(** The entries of the cache [_s3_request] reads, in the order it reads
    them. *)
Definition signer_keys : list string :=
  ["EndPoint"; "Region"; "Bucket"; "AccessKeyId"; "SecretAccessKey"; "Secure";
   "SessionToken"]%string.

Fixpoint first_missing (credentials : gmap string pyval) (keys : list string)
  : option string :=
  match keys with
  | [] => None
  | key :: rest =>
      match credentials !! key with
      | None => Some key
      | Some _ => first_missing credentials rest
      end
  end.

(** The entries [_setup_s3_client] writes. *)
Definition cached_keys : list string :=
  ["EndPoint"; "Secure"; "Bucket"; "Region"; "AccessKeyId"; "SecretAccessKey";
   "SessionToken"; "Expiration"]%string.

(** Strictly increasing, in the order of Python on strings. *)
Fixpoint increasing (names : list string) : bool :=
  match names with
  | a :: (b :: _) as rest => String.ltb a b && increasing rest
  | _ => true
  end.

(** The environment [env] under another interpreter. *)
Definition with_interpreter (env : Env) (version platform openssl : string) : Env := {|
  _parse_iso8601_string := @_parse_iso8601_string env;
  _md5sum_hash := @_md5sum_hash env;
  _sha256_hash := @_sha256_hash env;
  _hmac_hash := @_hmac_hash env;
  _to_signer_date := @_to_signer_date env;
  _to_amz_date := @_to_amz_date env;
  _generate_headers := @_generate_headers env;
  python_version := version;
  sys_platform := platform;
  OPENSSL_VERSION := openssl
|}.

(** The Authorization header of a call. *)
Definition authorization_header (r : result s3_call) : option string :=
  match r with
  | Ok call => dict_get "Authorization" (call_headers call)
  | Err _ => None
  end.
(** * Theorems *)

(** ** The filter compiler *)

Lemma process_each_fix (l : list pyval) :
  (fix each (l : list pyval) : result (list pyval) :=
     match l with
     | [] => Ok []
     | flt :: rest =>
         do result <- process_filters_val flt;
         do conditions <- each rest;
         Ok (result :: conditions)
     end) l = process_each l.
Proof.
  induction l as [|flt rest IH]; simpl; [reflexivity|].
  rewrite IH. reflexivity.
Qed.

(** One unfolding of [process_filters], the loop over the nested filters
    being [process_each]. *)
Lemma process_filters_eq (head : pyval) (tail : list pyval) :
  process_filters (head :: tail) =
  let expr := head :: tail in
  let operator := if py_in head [PStr "or"; PStr "and"] then head else PStr "and" in
  if forallb isinstance_list (rest_of expr) then
    do conditions <- process_each (rest_of expr);
    Ok (group_object operator conditions)
  else
    match expr with
    | [f0; f1; f2] =>
        if truthy f1
        then Ok (group_object operator [leaf_object f0 f1 (values_of f2)])
        else Err AssertionError
    | _ => Err AssertionError
    end.
Proof.
  unfold process_filters.
  cbn [process_filters_val rest_of].
  rewrite process_each_fix.
  destruct (py_in head [PStr "or"; PStr "and"]); reflexivity.
Qed.

Lemma py_in_operator (s : string) :
  py_in (PStr s) [PStr "or"; PStr "and"] = String.eqb s "or" || String.eqb s "and".
Proof.
  unfold py_in. cbn [existsb py_eq].
  rewrite (String.eqb_sym "or" s), (String.eqb_sym "and" s).
  rewrite orb_false_r. reflexivity.
Qed.

Lemma truthy_relation (relation : string) :
  relation <> ""%string -> truthy (PStr relation) = true.
Proof.
  intros Hne. cbn [truthy].
  apply negb_true_iff, String.eqb_neq, Hne.
Qed.

(** A triple compiles, on its own, to its leaf inside a group. *)
Lemma process_triple (t : string * string * pyval) :
  relation_of t <> ""%string ->
  process_filters_val (triple t) = Ok (wrapped_leaf_of t).
Proof.
  destruct t as [[field relation] value]. cbn [relation_of fst snd].
  intros Hrel.
  change (process_filters_val (triple (field, relation, value)))
    with (process_filters [PStr field; PStr relation; value]).
  rewrite process_filters_eq. cbv zeta.
  rewrite py_in_operator.
  assert (Hleaf : forallb isinstance_list
            (rest_of [PStr field; PStr relation; value]) = false).
  { cbn [rest_of]. rewrite py_in_operator.
    destruct (String.eqb field "or" || String.eqb field "and"); reflexivity. }
  rewrite Hleaf, (truthy_relation _ Hrel).
  reflexivity.
Qed.

(** C2.  A flat triple [[field, relation, value]] whose field is neither
    ["or"] nor ["and"] and whose relation is not empty compiles to the
    group [{"operator": "and", "conditions": [leaf]}], the leaf being
    [{"path": field, "relation": relation, "values": vs}] with [vs] the
    value itself when it is a list and [[value]] otherwise. *)
Theorem flat_triple_compiles (field relation : string) (value : pyval) :
  field <> "or"%string -> field <> "and"%string -> relation <> ""%string ->
  process_filters [PStr field; PStr relation; value] =
  Ok (PDict
        [("operator"%string, PStr "and");
         ("conditions"%string,
          PList
            [PDict
               [("path"%string, PStr field);
                ("relation"%string, PStr relation);
                ("values"%string,
                 match value with
                 | PList _ => value
                 | _ => PList [value]
                 end)]])]).
Proof.
  intros Hor Hand Hrel.
  change (process_filters [PStr field; PStr relation; value])
    with (process_filters_val (triple (field, relation, value))).
  rewrite process_triple by exact Hrel.
  cbn [wrapped_leaf_of leaf_of].
  apply String.eqb_neq in Hor, Hand. rewrite Hor, Hand.
  destruct value; reflexivity.
Qed.

Lemma flat_triple_compiles_witness :
  process_filters [PStr "name"; PStr "is"; PStr "Layout"] =
  Ok (PDict
        [("operator"%string, PStr "and");
         ("conditions"%string,
          PList
            [PDict
               [("path"%string, PStr "name");
                ("relation"%string, PStr "is");
                ("values"%string, PList [PStr "Layout"])]])]).
Proof.
  apply (flat_triple_compiles "name" "is" (PStr "Layout")); discriminate.
Defined.

(** The loop over a list of triples keeps one compiled triple per input
    triple, in order. *)
Lemma process_each_triples (ts : list (string * string * pyval)) :
  Forall (fun t => relation_of t <> ""%string) ts ->
  process_each (map triple ts) = Ok (map wrapped_leaf_of ts).
Proof.
  induction 1 as [|t ts Ht _ IH]; cbn [map process_each]; [reflexivity|].
  rewrite (process_triple t Ht), IH. reflexivity.
Qed.

Lemma forallb_triples (ts : list (string * string * pyval)) :
  forallb isinstance_list (map triple ts) = true.
Proof.
  induction ts as [|[[f r] v] ts IH]; [reflexivity|].
  cbn [map forallb triple isinstance_list]. exact IH.
Qed.

(** What the compiler does with a list of triples: every child of the
    group is itself a group around the leaf of one triple. *)
Lemma triples_compile_wrapped (ts : list (string * string * pyval)) :
  ts <> [] ->
  Forall (fun t => relation_of t <> ""%string) ts ->
  process_filters (map triple ts) =
  Ok (group_object (PStr "and") (map wrapped_leaf_of ts)).
Proof.
  intros Hne Hrel.
  destruct ts as [|t ts]; [congruence|].
  cbn [map]. rewrite process_filters_eq. cbv zeta.
  assert (Hhead : py_in (triple t) [PStr "or"; PStr "and"] = false)
    by (destruct t as [[f r] v]; reflexivity).
  cbn [rest_of]. rewrite Hhead.
  change (triple t :: map triple ts) with (map triple (t :: ts)).
  rewrite forallb_triples, (process_each_triples _ Hrel).
  reflexivity.
Qed.

(** C3.  On the second example of the docstring of [process_filters],
    [[["name", "is", "Layout"], ["status", "is", "wtg"]]], the children of
    the group are not the two leaves: each leaf comes wrapped in a group of
    its own, because [inject] starts from 0 in every recursive call. *)
Theorem docstring_example_2_wraps_leaves :
  let leaf1 := leaf_object (PStr "name") (PStr "is") (PList [PStr "Layout"]) in
  let leaf2 := leaf_object (PStr "status") (PStr "is") (PList [PStr "wtg"]) in
  process_filters
    [PList [PStr "name"; PStr "is"; PStr "Layout"];
     PList [PStr "status"; PStr "is"; PStr "wtg"]]
  = Ok (group_object (PStr "and")
          [group_object (PStr "and") [leaf1]; group_object (PStr "and") [leaf2]])
  /\ process_filters
       [PList [PStr "name"; PStr "is"; PStr "Layout"];
        PList [PStr "status"; PStr "is"; PStr "wtg"]]
     <> Ok (group_object (PStr "and") [leaf1; leaf2]).
Proof.
  cbv zeta.
  assert (E := triples_compile_wrapped
                 [("name", "is", PStr "Layout"); ("status", "is", PStr "wtg")]%string).
  cbn [map triple] in E. rewrite E.
  - split; [reflexivity | discriminate].
  - discriminate.
  - repeat constructor; discriminate.
Qed.

(** C4.  An expression that is treated as a leaf and has not exactly three
    elements, or has three and an empty relation, is rejected with the
    malformed-filter error. *)
Theorem malformed_leaf_rejected (expr : list pyval) :
  reaches_leaf expr = true ->
  (length expr <> 3%nat \/
   exists f0 f1 f2, expr = [f0; f1; f2] /\ truthy f1 = false) ->
  process_filters expr = Err MalformedFilter.
Proof.
  intros Hleaf Hbad.
  destruct expr as [|head tail]; [discriminate|].
  rewrite process_filters_eq. cbv zeta.
  cbn [reaches_leaf] in Hleaf. apply negb_true_iff in Hleaf. rewrite Hleaf.
  destruct Hbad as [Hlen | (f0 & f1 & f2 & Heq & Hrel)].
  - destruct tail as [|f1 [|f2 [|f3 tail]]]; try reflexivity.
    cbn [length] in Hlen. congruence.
  - injection Heq as -> ->. rewrite Hrel. reflexivity.
Qed.

Lemma malformed_leaf_rejected_witness :
  process_filters [PStr "name"; PStr "is"] = Err MalformedFilter /\
  process_filters [PStr "name"; PStr ""; PStr "Layout"] = Err MalformedFilter.
Proof.
  split.
  - apply malformed_leaf_rejected; [reflexivity | left; discriminate].
  - apply malformed_leaf_rejected; [reflexivity |].
    right. exists (PStr "name"), (PStr ""), (PStr "Layout").
    split; reflexivity.
Defined.

(** The error of a sub-expression is the error of the whole expression,
    when the sub-expressions before it compile. *)
Lemma process_each_raises (before after : list pyval) (flt : pyval) (e : pyerr) :
  Forall (fun f => exists compiled, process_filters_val f = Ok compiled) before ->
  process_filters_val flt = Err e ->
  process_each (before ++ flt :: after) = Err e.
Proof.
  intros Hbefore Hflt.
  induction Hbefore as [|f before [compiled Hf] _ IH]; cbn [app process_each].
  - rewrite Hflt. reflexivity.
  - rewrite Hf, IH. reflexivity.
Qed.

Lemma nested_error_raised (head : pyval) (tail before after : list pyval)
  (flt : pyval) (e : pyerr) :
  rest_of (head :: tail) = before ++ flt :: after ->
  forallb isinstance_list (rest_of (head :: tail)) = true ->
  Forall (fun f => exists compiled, process_filters_val f = Ok compiled) before ->
  process_filters_val flt = Err e ->
  process_filters (head :: tail) = Err e.
Proof.
  intros Hrest Hlists Hbefore Hflt.
  rewrite process_filters_eq. cbv zeta.
  rewrite Hlists, Hrest, (process_each_raises _ _ _ _ Hbefore Hflt).
  reflexivity.
Qed.

Example nested_malformed_leaf :
  process_filters
    [PStr "or"; PList [PStr "name"; PStr "is"; PStr "Layout"];
     PList [PStr "status"; PStr "is"]]
  = Err MalformedFilter.
Proof. reflexivity. Qed.

(** C5.  A three-element expression whose field is literally ["or"] or
    ["and"], with a non-empty relation and a value that is not a list:
    the token is taken as the operator, the two elements left are not a
    list of sub-expressions, and the whole expression is the leaf.  The
    result is [{"operator": token, "conditions": [{"path": token,
    "relation": relation, "values": [value]}]}]. *)
Theorem operator_named_field (token relation : string) (value : pyval) :
  token = "or"%string \/ token = "and"%string ->
  relation <> ""%string ->
  (forall items, value <> PList items) ->
  rest_of [PStr token; PStr relation; value] = [PStr relation; value] /\
  process_filters [PStr token; PStr relation; value] =
  Ok (PDict
        [("operator"%string, PStr token);
         ("conditions"%string,
          PList
            [PDict
               [("path"%string, PStr token);
                ("relation"%string, PStr relation);
                ("values"%string, PList [value])]])]).
Proof.
  intros Htoken Hrel Hvalue.
  assert (Hin : String.eqb token "or" || String.eqb token "and" = true)
    by (destruct Htoken as [-> | ->]; reflexivity).
  split.
  - cbn [rest_of]. rewrite py_in_operator, Hin. reflexivity.
  - change (process_filters [PStr token; PStr relation; value])
      with (process_filters_val (triple (token, relation, value))).
    rewrite process_triple by exact Hrel.
    cbn [wrapped_leaf_of leaf_of]. rewrite Hin.
    destruct value as [| | | |items|]; try reflexivity.
    destruct (Hvalue items eq_refl).
Qed.

Lemma operator_named_field_witness :
  rest_of [PStr "or"; PStr "is"; PInt 3] = [PStr "is"; PInt 3] /\
  process_filters [PStr "or"; PStr "is"; PInt 3] =
  Ok (PDict
        [("operator"%string, PStr "or");
         ("conditions"%string,
          PList
            [PDict
               [("path"%string, PStr "or");
                ("relation"%string, PStr "is");
                ("values"%string, PList [PInt 3])]])]).
Proof.
  apply (operator_named_field "or" "is" (PInt 3));
    [left; reflexivity | discriminate | discriminate].
Defined.

(** ** Result shaping *)

Lemma py_eq_int_1 (n : Z) : py_eq (PInt n) (PInt 1) = true <-> n = 1.
Proof. cbn [py_eq]. apply Z.eqb_eq. Qed.

Lemma get_rows_eq (payload : pydict pyval) (rows : pyval) :
  dict_get "rows" payload = Some rows ->
  (dict_get "paging" payload = None \/
   exists paging, dict_get "paging" payload = Some (PDict paging)) ->
  get_rows (PDict payload) =
  if py_eq (page_size_of payload) (PInt 1) && truthy rows then py_index0 rows
  else Ok rows.
Proof.
  intros Hrows Hpaging.
  unfold get_rows, page_size_of. cbn [py_get]. rewrite Hrows.
  destruct Hpaging as [-> | [paging ->]]; cbn [py_get dict_get].
  - reflexivity.
  - destruct (dict_get "page_size" paging); reflexivity.
Qed.

(** C9.  For a payload with a list of rows (and a paging entry that, when
    there is one, is an object): the single first row is returned when the
    paging reports [page_size == 1] and the rows are not empty; in every
    other case the list of rows is returned as it is. *)
Theorem get_rows_single_or_list (payload : pydict pyval) (rows : list pyval) :
  dict_get "rows" payload = Some (PList rows) ->
  (dict_get "paging" payload = None \/
   exists paging, dict_get "paging" payload = Some (PDict paging)) ->
  (py_eq (page_size_of payload) (PInt 1) = true -> rows <> [] ->
   exists row rest, rows = row :: rest /\ get_rows (PDict payload) = Ok row) /\
  (py_eq (page_size_of payload) (PInt 1) = false \/ rows = [] ->
   get_rows (PDict payload) = Ok (PList rows)).
Proof.
  intros Hrows Hpaging.
  rewrite (get_rows_eq _ _ Hrows Hpaging).
  split.
  - intros -> Hne. destruct rows as [|row rest]; [congruence|].
    exists row, rest. split; reflexivity.
  - intros [-> | ->]; [reflexivity|].
    rewrite andb_false_r. reflexivity.
Qed.

Lemma get_rows_single_or_list_witness :
  let row := PDict [("id", PInt 7); ("name", PStr "Foo")]%string in
  let payload :=
    [("success", PBool true); ("rows", PList [row]);
     ("paging", PDict [("page", PInt 1); ("page_size", PInt 1)])]%string in
  (exists r rest, [row] = r :: rest /\ get_rows (PDict payload) = Ok r) /\
  get_rows (PDict [("rows", PList [row])]%string) = Ok (PList [row]).
Proof.
  cbv zeta. split.
  - eapply get_rows_single_or_list;
      [reflexivity | right; eexists; reflexivity | reflexivity | discriminate].
  - eapply get_rows_single_or_list;
      [reflexivity | left; reflexivity | left; reflexivity].
Defined.

Lemma scan_rows_first (id : pyval) (rows children : list pyval) :
  Forall (fun row => is_dict row = true) rows ->
  scan_rows id rows children =
  Ok (children ++ match first_row id rows with Some row => [row] | None => [] end).
Proof.
  induction 1 as [|row rows Hrow _ IH]; cbn [scan_rows first_row List.find].
  - rewrite app_nil_r. reflexivity.
  - destruct row; try discriminate.
    cbn [py_get row_id].
    destruct (py_eq _ id); [reflexivity | exact IH].
Qed.

Lemma scan_ids_children (ids rows children : list pyval) :
  Forall (fun row => is_dict row = true) rows ->
  scan_ids ids (PList rows) children = Ok (children ++ children_of ids rows).
Proof.
  intros Hrows. revert children.
  induction ids as [|id ids IH]; intros children; cbn [scan_ids children_of flat_map].
  - rewrite app_nil_r. reflexivity.
  - cbn [py_iter]. rewrite (scan_rows_first _ _ _ Hrows), IH, <- app_assoc.
    reflexivity.
Qed.

Lemma scan_groups_grouped (groups rows grouped_rows : list pyval) :
  Forall (fun group => is_descriptor group = true) groups ->
  Forall (fun row => is_dict row = true) rows ->
  scan_groups groups (PList rows) grouped_rows =
  Ok (grouped_rows ++ map (grouped rows) groups).
Proof.
  intros Hgroups Hrows. revert grouped_rows.
  induction Hgroups as [|group groups Hgroup _ IH]; intros grouped_rows;
    cbn [scan_groups map].
  - rewrite app_nil_r. reflexivity.
  - destruct group as [| | | | |d]; try discriminate.
    unfold grouped at 1. cbn [py_get group_name group_ids].
    cbn [is_descriptor] in Hgroup.
    destruct (dict_get "ids" d) as [[| | | |ids|]|]; try discriminate.
    cbn [py_iter]. rewrite (scan_ids_children _ _ _ Hrows). cbn [app].
    rewrite IH, <- app_assoc. reflexivity.
Qed.

(** [get_rows] hands the list of rows on, unless the paging reports a
    page of one row and there is a row. *)
Lemma get_rows_list (payload : pydict pyval) (rows : list pyval) :
  dict_get "rows" payload = Some (PList rows) ->
  (dict_get "paging" payload = None \/
   exists paging, dict_get "paging" payload = Some (PDict paging)) ->
  py_eq (page_size_of payload) (PInt 1) = false \/ rows = [] ->
  get_rows (PDict payload) = Ok (PList rows).
Proof.
  intros Hrows Hpaging Hsize.
  rewrite (get_rows_eq _ _ Hrows Hpaging).
  destruct Hsize as [-> | ->]; [reflexivity|].
  rewrite andb_false_r. reflexivity.
Qed.

Lemma group_by_eq (payload : pydict pyval) (groups rows : list pyval) :
  dict_get "rows" payload = Some (PList rows) ->
  (dict_get "paging" payload = None \/
   exists paging, dict_get "paging" payload = Some (PDict paging)) ->
  py_eq (page_size_of payload) (PInt 1) = false \/ rows = [] ->
  dict_get "groups" payload = Some (PList groups) ->
  Forall (fun group => is_descriptor group = true) groups ->
  Forall (fun row => is_dict row = true) rows ->
  group_by (PDict payload) = Ok (PList (map (grouped rows) groups)).
Proof.
  intros Hlist Hpaging Hsize Hgroups Hdesc Hrows.
  unfold group_by. rewrite (get_rows_list _ _ Hlist Hpaging Hsize).
  cbn [py_get]. rewrite Hgroups. cbn [py_iter].
  rewrite (scan_groups_grouped _ _ _ Hdesc Hrows). reflexivity.
Qed.

(** C8, as the code has it.  For a payload whose rows are a list of row
    objects, whose paging (absent, or an object) does not report a page
    size of 1 unless there are no rows, and whose groups are a list of
    descriptors (objects with a list of ids): one group
    [{"display_name": name, "children": rows}] is emitted per descriptor,
    in the order of the descriptors, under its display name; its children
    are, for each id of the descriptor in order, the first row carrying
    that id, an id carried by no row adding nothing.  Every descriptor is
    matched against the whole row set. *)
Theorem group_by_children (payload : pydict pyval) (groups rows : list pyval) :
  dict_get "rows" payload = Some (PList rows) ->
  (dict_get "paging" payload = None \/
   exists paging, dict_get "paging" payload = Some (PDict paging)) ->
  py_eq (page_size_of payload) (PInt 1) = false \/ rows = [] ->
  dict_get "groups" payload = Some (PList groups) ->
  Forall (fun group => is_descriptor group = true) groups ->
  Forall (fun row => is_dict row = true) rows ->
  group_by (PDict payload) =
  Ok (PList
        (map (fun group =>
                PDict [("display_name"%string, group_name group);
                       ("children"%string,
                        PList (children_of (group_ids group) rows))])
           groups)).
Proof.
  intros Hlist Hpaging Hsize Hgroups Hdesc Hrows.
  rewrite (group_by_eq _ _ _ Hlist Hpaging Hsize Hgroups Hdesc Hrows).
  reflexivity.
Qed.

Lemma group_by_children_witness :
  let shot := PDict [("id", PInt 1); ("name", PStr "shot")]%string in
  let task := PDict [("id", PInt 2); ("name", PStr "task")]%string in
  group_by
    (PDict [("rows", PList [shot; task; PDict [("id", PInt 1)]]);
            ("paging", PDict [("page", PInt 1); ("page_size", PInt 25)]);
            ("groups",
             PList [PDict [("display_name", PStr "A"); ("ids", PList [PInt 2; PInt 9; PInt 1])];
                    PDict [("display_name", PStr "B"); ("ids", PList [])]])]%string)
  = Ok (PList [PDict [("display_name", PStr "A"); ("children", PList [task; shot])];
               PDict [("display_name", PStr "B"); ("children", PList [])]]%string).
Proof.
  cbv zeta.
  apply (group_by_children _
           [PDict [("display_name", PStr "A"); ("ids", PList [PInt 2; PInt 9; PInt 1])];
            PDict [("display_name", PStr "B"); ("ids", PList [])]]%string
           [PDict [("id", PInt 1); ("name", PStr "shot")];
            PDict [("id", PInt 2); ("name", PStr "task")];
            PDict [("id", PInt 1)]]%string);
    [reflexivity | right; eexists; reflexivity | left; reflexivity | reflexivity
    | repeat constructor | repeat constructor].
Defined.

(** C8, as it is worded, fails: a row whose id is listed by two
    descriptors becomes a child of both groups. *)
Lemma row_in_two_groups :
  let shot := PDict [("id", PInt 1); ("name", PStr "shot")]%string in
  let payload :=
    PDict [("rows", PList [shot]);
           ("groups",
            PList [PDict [("display_name", PStr "A"); ("ids", PList [PInt 1])];
                   PDict [("display_name", PStr "B"); ("ids", PList [PInt 1])]])]%string in
  group_by payload
  = Ok (PList [PDict [("display_name", PStr "A"); ("children", PList [shot])];
               PDict [("display_name", PStr "B"); ("children", PList [shot])]]%string)
  /\ ~ rows_assigned_once payload.
Proof.
  cbv zeta. split; [reflexivity|].
  intros Honce.
  refine (Honce _ eq_refl 0%nat 1%nat _ _ _ _ eq_refl eq_refl _ _).
  - discriminate.
  - left. reflexivity.
  - left. reflexivity.
Qed.

(** ** The polling loop *)

(** The transport answers its requests number [first], ..., [first + n - 1]
    with the status "still running". *)
Lemma polling_loop_skips (transport : nat -> urlopen_outcome) (n : nat) :
  forall (fuel first : nat) (slept : list Z),
  (forall k, (k < n)%nat ->
     exists r, transport (first + k)%nat = Returns r /\ status r = 202) ->
  polling_loop (n + fuel) transport first slept =
  polling_loop fuel transport (first + n) (slept ++ replicate n POLLING_INTERVAL).
Proof.
  induction n as [|n IH]; intros fuel first slept Hrunning.
  - cbn [replicate Nat.add]. rewrite app_nil_r, Nat.add_0_r. reflexivity.
  - destruct (Hrunning 0%nat) as (r & Hr & Hstatus); [lia|].
    rewrite Nat.add_0_r in Hr.
    cbn [Nat.add polling_loop]. rewrite Hr. cbn [_http_request].
    rewrite Hstatus. cbn [Z.eqb Pos.eqb].
    rewrite IH.
    + cbn [replicate]. rewrite <- app_assoc. cbn [app].
      replace (S first + n)%nat with (first + S n)%nat by lia. reflexivity.
    + intros k Hk. destruct (Hrunning (S k)) as (r' & Hr' & Hs'); [lia|].
      exists r'. split; [|exact Hs'].
      replace (S first + k)%nat with (first + S k)%nat by lia. exact Hr'.
Qed.

(** While fewer than [n + 1] requests are followed, the loop is still
    running. *)
Lemma polling_needs_every_request (transport : nat -> urlopen_outcome) (n fuel : nat) :
  (forall k, (k < n)%nat -> exists r, transport k = Returns r /\ status r = 202) ->
  (fuel <= n)%nat ->
  _polling_http_request fuel transport = StillPolling.
Proof.
  intros Hrunning Hfuel. unfold _polling_http_request.
  replace fuel with (fuel + 0)%nat by lia.
  rewrite polling_loop_skips; [reflexivity|].
  intros k Hk. apply Hrunning. lia.
Qed.

(** When the transport raises instead of answering, so does the loop. *)
Lemma polling_raises (transport : nat -> urlopen_outcome) (n fuel : nat) (e : pyerr) :
  (forall k, (k < n)%nat -> exists r, transport k = Returns r /\ status r = 202) ->
  _http_request (transport n) = Err e ->
  (n < fuel)%nat ->
  _polling_http_request fuel transport = Raised e (replicate n POLLING_INTERVAL).
Proof.
  intros Hrunning Hraise Hfuel. unfold _polling_http_request.
  replace fuel with (n + S (fuel - S n))%nat by lia.
  rewrite polling_loop_skips by exact Hrunning.
  cbn [polling_loop Nat.add app]. rewrite Hraise. reflexivity.
Qed.

(** C7.  When the transport answers the first [n] requests with the status
    "still running" (202) and request [n + 1] with a response of any other
    status, the loop sleeps [n] times, [POLLING_INTERVAL] each, and returns
    that response, whatever it is; this for every bound above [n] on the
    requests followed.  When the transport answers every request with 202,
    the loop has not returned after any number of requests. *)
Theorem polling_returns_first_other_status :
  (forall (transport : nat -> urlopen_outcome) (n : nat) (last : response),
     (forall k, (k < n)%nat -> exists r, transport k = Returns r /\ status r = 202) ->
     transport n = Returns last ->
     status last <> 202 ->
     forall fuel, (n < fuel)%nat ->
       _polling_http_request fuel transport
       = Returned last (replicate n POLLING_INTERVAL)) /\
  (forall transport : nat -> urlopen_outcome,
     (forall k, exists r, transport k = Returns r /\ status r = 202) ->
     forall fuel, _polling_http_request fuel transport = StillPolling).
Proof.
  split.
  - intros transport n last Hrunning Hlast Hstatus fuel Hfuel.
    unfold _polling_http_request.
    replace fuel with (n + S (fuel - S n))%nat by lia.
    rewrite polling_loop_skips by exact Hrunning.
    cbn [polling_loop Nat.add app]. rewrite Hlast. cbn [_http_request].
    apply Z.eqb_neq in Hstatus. rewrite Hstatus. reflexivity.
  - intros transport Hrunning fuel.
    apply (polling_needs_every_request transport fuel fuel); [|lia].
    intros k _. apply Hrunning.
Qed.

Lemma polling_returns_first_other_status_witness :
  let running := {| status := 202; decode_payload := Ok (PDict []) |} in
  let failed :=
    {| status := 200;
       decode_payload := Ok (PDict [("success", PBool false)]%string) |} in
  _polling_http_request 5
    (fun k => if (k <? 2)%nat then Returns running else Returns failed)
  = Returned failed [POLLING_INTERVAL; POLLING_INTERVAL]
  /\ _polling_http_request 5 (fun _ => Returns running) = StillPolling.
Proof.
  cbv zeta. split.
  - apply (proj1 polling_returns_first_other_status
             (fun k => if (k <? 2)%nat then Returns _ else Returns _) 2%nat).
    + intros k Hk. eexists. split.
      * destruct k as [|[|k]]; [reflexivity | reflexivity | lia].
      * reflexivity.
    + reflexivity.
    + discriminate.
    + lia.
  - apply (proj2 polling_returns_first_other_status).
    intros k. eexists. split; [reflexivity|]. reflexivity.
Defined.

(** ** Dictionaries and sorting *)

Lemma dict_get_set_eq {V} (key : string) (value : V) (d : pydict V) :
  dict_get key (dict_set key value d) = Some value.
Proof.
  induction d as [|[k v] d IH]; cbn [dict_set dict_get].
  - rewrite String.eqb_refl. reflexivity.
  - destruct (String.eqb k key) eqn:E; cbn [dict_get]; rewrite E; [reflexivity | exact IH].
Qed.

Lemma dict_get_set_ne {V} (key key' : string) (value : V) (d : pydict V) :
  key <> key' -> dict_get key' (dict_set key value d) = dict_get key' d.
Proof.
  intros Hne. induction d as [|[k v] d IH]; cbn [dict_set dict_get].
  - apply String.eqb_neq in Hne. rewrite Hne. reflexivity.
  - destruct (String.eqb k key) eqn:E; cbn [dict_get].
    + apply String.eqb_eq in E. subst k.
      apply String.eqb_neq in Hne. rewrite Hne. reflexivity.
    + rewrite IH. reflexivity.
Qed.

Lemma dict_set_fresh {V} (key : string) (value : V) (d : pydict V) :
  ~ In key (dict_keys d) -> dict_set key value d = d ++ [(key, value)].
Proof.
  induction d as [|[k v] d IH]; cbn [dict_set dict_keys map In app fst];
    intros Hfresh; [reflexivity|].
  destruct (String.eqb k key) eqn:E.
  - apply String.eqb_eq in E. tauto.
  - rewrite IH by tauto. reflexivity.
Qed.

Lemma In_dict_set {V} (key k : string) (value v : V) (d : pydict V) :
  In (k, v) (dict_set key value d) -> (k = key /\ v = value) \/ In (k, v) d.
Proof.
  induction d as [|[k0 v0] d IH]; cbn [dict_set In].
  - intros [Heq | []]. injection Heq as <- <-. left. split; reflexivity.
  - destruct (String.eqb k0 key) eqn:E; cbn [In].
    + apply String.eqb_eq in E. subst k0.
      intros [Heq | Hin]; [|tauto]. injection Heq as <- <-. left. split; reflexivity.
    + intros [Heq | Hin]; [tauto|]. destruct (IH Hin); tauto.
Qed.

Lemma In_dict_set_same {V} (key : string) (value : V) (d : pydict V) :
  In (key, value) (dict_set key value d).
Proof.
  induction d as [|[k v] d IH]; cbn [dict_set]; [left; reflexivity|].
  destruct (String.eqb k key) eqn:E.
  - apply String.eqb_eq in E. subst k. left. reflexivity.
  - right. exact IH.
Qed.

Lemma In_dict_set_other {V} (key k : string) (value v : V) (d : pydict V) :
  k <> key -> In (k, v) d -> In (k, v) (dict_set key value d).
Proof.
  intros Hne. induction d as [|[k0 v0] d IH]; cbn [dict_set In]; [tauto|].
  destruct (String.eqb k0 key) eqn:E; cbn [In].
  - apply String.eqb_eq in E. subst k0.
    intros [Heq | Hin]; [|tauto]. injection Heq as <- <-. congruence.
  - intros [Heq | Hin]; [tauto|]. right. apply IH, Hin.
Qed.

Lemma dict_get_In {V} (key : string) (value : V) (d : pydict V) :
  dict_get key d = Some value -> In (key, value) d.
Proof.
  induction d as [|[k v] d IH]; cbn [dict_get In]; [discriminate|].
  destruct (String.eqb k key) eqn:E.
  - apply String.eqb_eq in E. subst k. intros [= ->]. left. reflexivity.
  - intros Hget. right. apply IH, Hget.
Qed.

Lemma dict_keys_set {V} (key k : string) (value : V) (d : pydict V) :
  In k (dict_keys (dict_set key value d)) <-> k = key \/ In k (dict_keys d).
Proof.
  induction d as [|[k0 v0] d IH]; cbn [dict_set dict_keys map In fst].
  - split; [intros [<- | []]; tauto | intros [-> | []]; tauto].
  - destruct (String.eqb k0 key) eqn:E; cbn [dict_keys map In fst].
    + apply String.eqb_eq in E. subst k0. split; [tauto|].
      intros [-> | [<- | Hin]]; tauto.
    + unfold dict_keys in IH. rewrite IH. tauto.
Qed.

Lemma ltb_leb_ne (a b : string) : a <> b -> String.ltb a b = String.leb a b.
Proof.
  intros Hne. unfold String.ltb, String.leb.
  destruct (String.compare a b) eqn:E; try reflexivity.
  apply String.compare_eq_iff in E. contradiction.
Qed.

Lemma item_leb_name_leb (x y : string * string) :
  fst x <> fst y -> item_leb x y = name_leb x y.
Proof.
  intros Hne. unfold item_leb, name_leb.
  rewrite (ltb_leb_ne _ _ Hne).
  apply String.eqb_neq in Hne. rewrite Hne, orb_false_r. reflexivity.
Qed.

Lemma In_insert_sorted {A} (leb : A -> A -> bool) (x y : A) (l : list A) :
  In y (insert_sorted leb x l) <-> y = x \/ In y l.
Proof.
  induction l as [|z l IH]; cbn [insert_sorted In].
  - split; [intros [<- | []]; tauto | intros [-> | []]; tauto].
  - destruct (leb x z); cbn [In]; [|rewrite IH]; intuition congruence.
Qed.

Lemma In_sorted_by {A} (leb : A -> A -> bool) (y : A) (l : list A) :
  In y (sorted_by leb l) <-> In y l.
Proof.
  induction l as [|x l IH]; cbn [sorted_by foldr In]; [tauto|].
  fold (sorted_by leb l). rewrite In_insert_sorted, IH. intuition congruence.
Qed.

Lemma insert_sorted_names (x : string * string) (l : list (string * string)) :
  ~ In (fst x) (map fst l) ->
  insert_sorted item_leb x l = insert_sorted name_leb x l.
Proof.
  induction l as [|y l IH]; cbn [insert_sorted map In]; intros Hfresh; [reflexivity|].
  rewrite item_leb_name_leb by (intros E; apply Hfresh; left; symmetry; exact E).
  rewrite IH by tauto. reflexivity.
Qed.

(** On entries with pairwise distinct names, the order of Python on the
    pairs sorts as the order on the names does. *)
Lemma sorted_by_names (l : list (string * string)) :
  NoDup (map fst l) -> sorted_by item_leb l = sorted_by name_leb l.
Proof.
  induction l as [|x l IH]; cbn [sorted_by foldr map]; [reflexivity|].
  intros Hnodup. apply NoDup_cons in Hnodup as [Hfresh Hnodup].
  fold (sorted_by item_leb l). fold (sorted_by name_leb l).
  rewrite (IH Hnodup). apply insert_sorted_names.
  intros Hin. apply Hfresh.
  apply list_elem_of_In.
  apply in_map_iff in Hin as (y & Hy & Hin). apply In_sorted_by in Hin.
  apply in_map_iff. exists y. split; assumption.
Qed.

(** ** The canonical headers *)

Lemma canonical_step_kept (acc : pydict string) (item : string * hval) :
  kept item = true ->
  ~ In (lower (fst item)) (dict_keys acc) ->
  canonical_step acc item = acc ++ [canonical_entry item].
Proof.
  intros Hkept Hfresh. unfold canonical_step.
  unfold kept in Hkept. rewrite Hkept.
  apply dict_set_fresh, Hfresh.
Qed.

Lemma canonical_step_excluded (acc : pydict string) (item : string * hval) :
  kept item = false -> canonical_step acc item = acc.
Proof.
  intros Hkept. unfold canonical_step.
  unfold kept in Hkept. rewrite Hkept. reflexivity.
Qed.

(** With names that differ once lower-cased, no assignment of the loop
    overwrites an earlier one. *)
Lemma canonical_fold (headers : pydict hval) :
  forall acc : pydict string,
  NoDup (dict_keys acc ++ map lower (dict_keys headers)) ->
  fold_left canonical_step headers acc
  = acc ++ map canonical_entry (List.filter kept headers).
Proof.
  induction headers as [|item headers IH]; intros acc Hnodup;
    cbn [fold_left List.filter map dict_keys].
  - rewrite app_nil_r. reflexivity.
  - cbn [dict_keys map] in Hnodup.
    apply NoDup_app in Hnodup as (Hacc & Hdisjoint & Hrest).
    apply NoDup_cons in Hrest as [Hfresh Hrest].
    assert (Hitem : ~ In (lower (fst item)) (dict_keys acc)).
    { intros Hin. apply list_elem_of_In in Hin.
      apply (Hdisjoint _ Hin). left. }
    destruct (kept item) eqn:Hkept.
    + rewrite (canonical_step_kept _ _ Hkept Hitem), IH.
      * cbn [map]. rewrite <- app_assoc. reflexivity.
      * unfold dict_keys. rewrite map_app. cbn [map].
        apply NoDup_app. split; [|split].
        -- apply NoDup_app. split; [exact Hacc|]. split.
           ++ intros x Hx Hx'. apply list_elem_of_singleton in Hx'. subst x.
              apply Hitem, list_elem_of_In, Hx.
           ++ apply NoDup_singleton.
        -- intros x Hx. apply elem_of_app in Hx as [Hx | Hx].
           ++ intros Hx'. apply (Hdisjoint _ Hx). right. exact Hx'.
           ++ apply list_elem_of_singleton in Hx. subst x. exact Hfresh.
        -- exact Hrest.
    + rewrite (canonical_step_excluded _ _ Hkept), IH; [reflexivity|].
      apply NoDup_app. split; [exact Hacc|]. split; [|exact Hrest].
      intros x Hx Hx'. apply (Hdisjoint _ Hx). right. exact Hx'.
Qed.

Lemma kept_names (headers : pydict hval) (name : string) :
  In name (map fst (map canonical_entry (List.filter kept headers))) ->
  In name (map lower (dict_keys headers)).
Proof.
  induction headers as [|item headers IH]; cbn [List.filter map dict_keys];
    [tauto|].
  destruct (kept item); cbn [map In canonical_entry fst]; unfold dict_keys in IH;
    tauto.
Qed.

Lemma kept_names_distinct (headers : pydict hval) :
  distinct_names headers ->
  NoDup (map fst (map canonical_entry (List.filter kept headers))).
Proof.
  unfold distinct_names.
  induction headers as [|item headers IH]; cbn [List.filter map dict_keys];
    intros Hnodup; [constructor|].
  apply NoDup_cons in Hnodup as [Hfresh Hnodup].
  destruct (kept item); [|exact (IH Hnodup)].
  cbn [map]. apply NoDup_cons. split; [|exact (IH Hnodup)].
  intros Hin. apply Hfresh.
  apply list_elem_of_In, kept_names, list_elem_of_In, Hin.
Qed.

(** The entries the specification describes, over the space character, are
    those of the loop. *)
Lemma reference_entries (headers : pydict hval) :
  sigv4_entries is_space headers
  = sorted_by name_leb (map canonical_entry (List.filter kept headers)).
Proof.
  unfold sigv4_entries. f_equal.
  induction headers as [|item headers IH]; cbn [map List.filter]; [reflexivity|].
  cbn [fst snd]. unfold kept at 1.
  destruct (negb (existsb (String.eqb (lower (fst item))) excluded));
    cbn [map]; rewrite IH; reflexivity.
Qed.

Lemma canonical_headers_are_reference (headers : pydict hval) :
  distinct_names headers ->
  canonical_headers_of headers = sigv4_entries is_space headers.
Proof.
  intros Hdistinct. unfold canonical_headers_of.
  rewrite canonical_fold by exact Hdistinct.
  cbn [app]. rewrite reference_entries.
  apply sorted_by_names, kept_names_distinct, Hdistinct.
Qed.

Lemma dict_get_values (key name : string) (values : list string)
  (rest : list (string * string)) :
  name <> key ->
  dict_get key (map (fun val => (name, val)) values ++ rest) = dict_get key rest.
Proof.
  intros Hne. apply String.eqb_neq in Hne.
  induction values as [|val values IH]; cbn [map app dict_get]; [reflexivity|].
  rewrite Hne. exact IH.
Qed.

(** The header set last is found under its name in the headers sent. *)
Lemma dict_get_http_headers (key value : string) (headers : pydict hval) :
  dict_get key (http_headers_of (dict_set key (HStr value) headers)) = Some value.
Proof.
  unfold http_headers_of.
  induction headers as [|[name v] headers IH]; cbn [dict_set flat_map].
  - cbn [fst snd hval_values map app dict_get]. rewrite String.eqb_refl. reflexivity.
  - destruct (String.eqb name key) eqn:E; cbn [flat_map fst snd].
    + cbn [hval_values map app dict_get]. rewrite E. reflexivity.
    + apply String.eqb_neq in E. rewrite dict_get_values by exact E. exact IH.
Qed.

Section SignerFacts.
Context {env : Env}.

(** What [_s3_request] returns when the cache holds a credentials record. *)
Lemma _s3_request_eq (credentials : gmap string pyval) (c : storage_credentials)
  (method object_name : string) (file_object : option string)
  (preload_content : bool) (date : datetime) :
  stores credentials c ->
  _s3_request credentials method object_name file_object preload_content date =
  let headers := s3_headers (endpoint c) (session_token c) file_object date in
  let scope := scope_of date (region c) "s3" in
  let signature :=
    _hmac_hash (signing_key_of (secret_key c) (region c) "s3" date)
      (string_to_sign_of date scope
         (canonical_request_of method (object_path c object_name) headers)) true in
  let authorization :=
    authorization_of (access_key c) scope
      (String.concat ";" (dict_keys (canonical_headers_of headers))) signature in
  Ok {| call_method := method;
        call_url :=
          {| scheme := if truthy (secure c) then "https" else "http";
             netloc := endpoint c;
             path := object_path c object_name;
             query := "";
             fragment := "" |};
        call_body := file_object;
        call_headers := http_headers_of (dict_set "Authorization" (HStr authorization) headers);
        call_preload_content := preload_content |}.
Proof.
  intros (Hep & Hsec & Hbucket & Hregion & Hak & Hsk & Htoken).
  unfold _s3_request, cred.
  rewrite Hep, Hregion, Hbucket, Hak, Hsk, Hsec, Htoken.
  reflexivity.
Qed.

Lemma scope_is_reference (date : datetime) (region : string) :
  scope_of date region "s3" = sigv4_scope date region.
Proof. reflexivity. Qed.

Lemma canonical_request_is_reference (method url_path : string)
  (headers : pydict hval) :
  distinct_names headers ->
  canonical_request_of method url_path headers
  = sigv4_canonical_request is_space method url_path headers.
Proof.
  intros Hdistinct.
  unfold canonical_request_of, sigv4_canonical_request, sigv4_canonical_headers,
    sigv4_signed_headers, sigv4_payload_hash, dict_keys, header_line.
  rewrite (canonical_headers_are_reference _ Hdistinct). reflexivity.
Qed.

Lemma string_to_sign_is_reference (date : datetime) (region canonical_request : string) :
  string_to_sign_of date (scope_of date region "s3") canonical_request
  = sigv4_string_to_sign date region canonical_request.
Proof. reflexivity. Qed.

Lemma signing_key_is_reference (secret_key region : string) (date : datetime) :
  signing_key_of secret_key region "s3" date
  = sigv4_signing_key secret_key region date.
Proof. reflexivity. Qed.

(** When the helper contributes no header, the names of the request are
    distinct whatever the request. *)
Lemma default_names_distinct (end_point session_token : string)
  (file_object : option string) (date : datetime) :
  _generate_headers = [] ->
  distinct_names (s3_headers end_point session_token file_object date).
Proof.
  intros Hbase. unfold distinct_names, s3_headers. rewrite Hbase.
  cbn [dict_set dict_get String.eqb Ascii.eqb Bool.eqb hval_truthy].
  destruct file_object as [[|c rest]|];
    destruct (_md5sum_hash _) as [[|c' rest']|];
    apply (bool_decide_unpack _); vm_compute; exact I.
Qed.

(** C1, as the code has it.  With header names that differ once
    lower-cased, the Authorization header of the request is the one the
    specification describes: the payload hash is the sentinel; the
    canonical request, the string to sign, the chain of keys and the
    signature are those of the reference computation, the runs collapsed in
    header values being the runs of the space character. *)
Theorem authorization_is_sigv4 (credentials : gmap string pyval)
  (c : storage_credentials) (method object_name : string)
  (file_object : option string) (preload_content : bool) (date : datetime) :
  stores credentials c ->
  distinct_names (s3_headers (endpoint c) (session_token c) file_object date) ->
  exists call,
    _s3_request credentials method object_name file_object preload_content date
    = Ok call /\
    dict_get "Authorization" (call_headers call)
    = Some (sigv4_authorization is_space (access_key c) (secret_key c) (region c)
              method (object_path c object_name)
              (s3_headers (endpoint c) (session_token c) file_object date) date).
Proof.
  intros Hstores Hdistinct.
  rewrite (_s3_request_eq _ _ _ _ _ _ _ Hstores). cbv zeta.
  eexists. split; [reflexivity|].
  cbn [call_headers]. rewrite dict_get_http_headers. f_equal.
  rewrite (canonical_request_is_reference _ _ _ Hdistinct),
    string_to_sign_is_reference, signing_key_is_reference, scope_is_reference.
  unfold sigv4_authorization, sigv4_signature, sigv4_signed_headers,
    hex_HMAC, authorization_of, dict_keys.
  rewrite (canonical_headers_are_reference _ Hdistinct).
  reflexivity.
Qed.

End SignerFacts.

Lemma dict_get_absent {V} (key : string) (d : pydict V) :
  ~ In key (dict_keys d) -> dict_get key d = None.
Proof.
  induction d as [|[k v] d IH]; cbn [dict_get dict_keys map In fst];
    intros Habsent; [reflexivity|].
  destruct (String.eqb k key) eqn:E.
  - apply String.eqb_eq in E. tauto.
  - apply IH. tauto.
Qed.

(** Once the canonical dictionary holds the value of a header, the later
    headers of that name, carrying the same value, leave it there. *)
Lemma canonical_fold_keeps (key : string) (v : hval) (headers : pydict hval) :
  forall acc : pydict string,
  (forall k' v', In (k', v') headers -> lower k' = key -> v' = v) ->
  dict_get key acc = Some (canonical_value v) ->
  dict_get key (fold_left canonical_step headers acc) = Some (canonical_value v).
Proof.
  induction headers as [|[name value] headers IH]; intros acc Hsame Hacc;
    cbn [fold_left]; [exact Hacc|].
  apply IH; [intros k' v' Hin; apply Hsame; right; exact Hin|].
  unfold canonical_step. cbn [fst snd].
  destruct (negb (existsb (String.eqb (lower name)) excluded)); [|exact Hacc].
  destruct (String.eqb (lower name) key) eqn:E.
  - apply String.eqb_eq in E.
    rewrite (Hsame name value (or_introl eq_refl) E), E.
    apply dict_get_set_eq.
  - apply String.eqb_neq in E. rewrite dict_get_set_ne by exact E. exact Hacc.
Qed.

Lemma canonical_fold_finds (key name : string) (v : hval) (headers : pydict hval) :
  forall acc : pydict string,
  In (name, v) headers ->
  lower name = key ->
  existsb (String.eqb key) excluded = false ->
  (forall k' v', In (k', v') headers -> lower k' = key -> v' = v) ->
  dict_get key (fold_left canonical_step headers acc) = Some (canonical_value v).
Proof.
  induction headers as [|item headers IH]; intros acc Hin Hname Hkept Hsame;
    [destruct Hin|].
  cbn [fold_left].
  destruct Hin as [-> | Hin].
  - apply canonical_fold_keeps;
      [intros k' v' Hin'; apply Hsame; right; exact Hin'|].
    unfold canonical_step. cbn [fst snd]. rewrite Hname, Hkept. cbn [negb].
    apply dict_get_set_eq.
  - apply IH; try assumption.
    intros k' v' Hin'. apply Hsame. right. exact Hin'.
Qed.

Lemma In_http_headers (name value : string) (headers : pydict hval) :
  In (name, HStr value) headers -> In (name, value) (http_headers_of headers).
Proof.
  intros Hin. unfold http_headers_of. apply in_flat_map.
  exists (name, HStr value). split; [exact Hin|]. left. reflexivity.
Qed.

Lemma dict_get_http_headers_str (key value : string) (headers : pydict hval) :
  dict_get key headers = Some (HStr value) ->
  dict_get key (http_headers_of headers) = Some value.
Proof.
  unfold http_headers_of.
  induction headers as [|[name v] headers IH]; cbn [dict_get flat_map fst snd];
    [discriminate|].
  destruct (String.eqb name key) eqn:E.
  - intros [= ->]. cbn [hval_values map app dict_get]. rewrite E. reflexivity.
  - apply String.eqb_neq in E. rewrite dict_get_values by exact E. exact IH.
Qed.

Section DigestFacts.
Context {env : Env}.

(** Peels the assignments that build the headers off a membership. *)
Ltac peel Hin :=
  repeat (apply In_dict_set in Hin as [[-> ->] | Hin]).

Lemma content_md5_header (end_point session_token body md5 : string)
  (date : datetime) :
  body <> ""%string ->
  (forall name, In name (dict_keys _generate_headers) ->
     lower name <> "content-md5"%string) ->
  _md5sum_hash (Some body) = Some md5 ->
  md5 <> ""%string ->
  let headers := s3_headers end_point session_token (Some body) date in
  In ("Content-MD5"%string, HStr md5) headers /\
  (forall k' v', In (k', v') headers -> lower k' = "content-md5"%string ->
     v' = HStr md5).
Proof.
  intros Hbody Hbase Hmd5 Hne. cbv zeta.
  assert (Hadded : dict_get "Content-MD5"
            (dict_set "Content-Type" (HStr "application/octet-stream")
               _generate_headers) = None).
  { rewrite dict_get_set_ne by discriminate.
    apply dict_get_absent. intros Hin. apply (Hbase _ Hin). reflexivity. }
  unfold s3_headers. rewrite Hadded. cbn [hval_truthy]. rewrite Hmd5.
  destruct body as [|c rest]; [congruence|].
  destruct md5 as [|c' rest']; [congruence|].
  split.
  - do 3 (apply In_dict_set_other; [discriminate|]).
    apply In_dict_set_same.
  - intros k' v' Hin Hlower.
    peel Hin; try discriminate Hlower; try reflexivity.
    exfalso. apply (Hbase k'); [|exact Hlower].
    apply in_map_iff. exists (k', v'). split; [reflexivity | exact Hin].
Qed.

(** C10.  A request with a non-empty body, the helper contributing no
    Content-MD5 header of its own: the digest [utils._md5sum_hash] gives
    for the body is sent as the Content-MD5 header; [content-md5] is among
    the canonical headers, with that digest, and among the signed header
    names.  The canonical request lists these entries and names, and ends
    with the sentinel as payload hash; its SHA-256 is the last line of the
    string to sign, whose HMAC under the derived key is the signature of
    the Authorization header. *)
Theorem content_md5_is_signed (credentials : gmap string pyval)
  (c : storage_credentials) (method object_name body md5 : string)
  (preload_content : bool) (date : datetime) :
  stores credentials c ->
  body <> ""%string ->
  (forall name, In name (dict_keys _generate_headers) ->
     lower name <> "content-md5"%string) ->
  _md5sum_hash (Some body) = Some md5 ->
  md5 <> ""%string ->
  let headers := s3_headers (endpoint c) (session_token c) (Some body) date in
  let entries := canonical_headers_of headers in
  let signed_headers := String.concat ";" (map fst entries) in
  let url_path := ("/" +:+ bucket c +:+ "/" +:+ object_name)%string in
  let canonical_request :=
    (method +:+ nl +:+ url_path +:+ nl
     +:+ nl
     +:+ String.concat nl (map (fun entry => fst entry +:+ ":" +:+ snd entry) entries)
     +:+ nl +:+ nl
     +:+ signed_headers +:+ nl
     +:+ "UNSIGNED-PAYLOAD")%string in
  let scope :=
    (_to_signer_date date +:+ "/" +:+ region c +:+ "/s3/aws4_request")%string in
  let string_to_sign :=
    ("AWS4-HMAC-SHA256" +:+ nl +:+ _to_amz_date date +:+ nl +:+ scope +:+ nl
     +:+ _sha256_hash canonical_request)%string in
  let signing_key :=
    _hmac_hash
      (_hmac_hash
         (_hmac_hash
            (_hmac_hash ("AWS4" +:+ secret_key c) (_to_signer_date date) false)
            (region c) false)
         "s3" false)
      "aws4_request" false in
  exists call,
    _s3_request credentials method object_name (Some body) preload_content date
    = Ok call /\
    In ("Content-MD5"%string, md5) (call_headers call) /\
    In ("content-md5"%string, collapse is_space md5) entries /\
    In "content-md5"%string (map fst entries) /\
    dict_get "x-amz-content-sha256" (call_headers call) = Some "UNSIGNED-PAYLOAD"%string /\
    dict_get "Authorization" (call_headers call)
    = Some ("AWS4-HMAC-SHA256 Credential=" +:+ access_key c +:+ "/" +:+ scope
            +:+ ", SignedHeaders=" +:+ signed_headers
            +:+ ", Signature=" +:+ _hmac_hash signing_key string_to_sign true)%string.
Proof.
  intros Hstores Hbody Hbase Hmd5 Hne. cbv zeta.
  destruct (content_md5_header (endpoint c) (session_token c) body md5 date
              Hbody Hbase Hmd5 Hne) as [Hin Hsame].
  rewrite (_s3_request_eq _ _ _ _ _ _ _ Hstores). cbv zeta.
  eexists. split; [reflexivity|].
  cbn [call_headers].
  assert (Hentry : In ("content-md5"%string, collapse is_space md5)
            (canonical_headers_of
               (s3_headers (endpoint c) (session_token c) (Some body) date))).
  { apply In_sorted_by, dict_get_In.
    change (collapse is_space md5) with (canonical_value (HStr md5)).
    apply (canonical_fold_finds _ "Content-MD5"); [exact Hin | reflexivity.. | exact Hsame]. }
  split; [|split; [exact Hentry|split; [|split]]].
  - apply In_http_headers, In_dict_set_other; [discriminate | exact Hin].
  - apply in_map_iff. eexists. split; [|exact Hentry]. reflexivity.
  - apply dict_get_http_headers_str.
    rewrite dict_get_set_ne by discriminate.
    unfold s3_headers.
    do 2 (rewrite dict_get_set_ne by discriminate).
    apply dict_get_set_eq.
  - rewrite dict_get_http_headers. reflexivity.
Qed.

End DigestFacts.

(** ** The credentials cache *)

Lemma _setup_s3_client_eq (credentials : gmap string pyval)
  (c : storage_credentials) (expiration : string) :
  _setup_s3_client (ack_payload c expiration) credentials
  = (Ok tt, refreshed credentials c expiration).
Proof. reflexivity. Qed.

Lemma refreshed_stores (credentials : gmap string pyval)
  (c : storage_credentials) (expiration : string) :
  stores (refreshed credentials c expiration) c /\
  refreshed credentials c expiration !! "Expiration" = Some (PStr expiration).
Proof.
  unfold stores, refreshed.
  repeat split; simplify_map_eq; reflexivity.
Qed.

(** An answer that lacks a field leaves the cache written up to that
    field. *)
Example partial_answer_partial_write (credentials : gmap string pyval) (v : pyval) :
  _setup_s3_client (PDict [("EndPoint"%string, v)]) credentials
  = (Err (KeyError "Secure"), <["EndPoint" := v]> credentials).
Proof. reflexivity. Qed.

Section CacheFacts.
Context {env : Env}.

Lemma stale_expired (credentials : gmap string pyval) (now : datetime) :
  stale credentials now -> _is_s3_expired now credentials = (Ok true, credentials).
Proof.
  intros [Hnone | (expiration & t & Hsome & Hne & Hparse & Hlt)];
    unfold _is_s3_expired.
  - rewrite Hnone. reflexivity.
  - rewrite Hsome, (truthy_relation _ Hne). cbn [negb as_str]. rewrite Hparse.
    apply Z.ltb_lt in Hlt. rewrite Hlt. reflexivity.
Qed.

Lemma fresh_not_expired (credentials : gmap string pyval) (now : datetime) :
  fresh credentials now -> _is_s3_expired now credentials = (Ok false, credentials).
Proof.
  intros (expiration & t & Hsome & Hne & Hparse & Hlt). unfold _is_s3_expired.
  rewrite Hsome, (truthy_relation _ Hne). cbn [negb as_str]. rewrite Hparse.
  assert (Hge : (t <? now) = false) by (apply Z.ltb_ge; lia).
  rewrite Hge. reflexivity.
Qed.

(** The signer does not read the expiration. *)
Lemma _s3_request_expiration (credentials : gmap string pyval) (expiration : pyval)
  (method object_name : string) (file_object : option string)
  (preload_content : bool) (date : datetime) :
  _s3_request (<["Expiration" := expiration]> credentials) method object_name
    file_object preload_content date
  = _s3_request credentials method object_name file_object preload_content date.
Proof.
  unfold _s3_request, cred.
  repeat (rewrite lookup_insert_ne by discriminate).
  reflexivity.
Qed.

(** C6, as the code has it.  The signer makes no check of the expiration:
    with a credentials record in the cache it signs, whatever the clock and
    the expiration cached, and it leaves the cache as it is.  The check is
    made by [enable_s3], before an upload: a cache whose expiration is
    strictly after now is left untouched; a cache without expiration, or
    with one strictly before now, is refreshed from the answer of the
    [/cloud/ack] endpoint, and the upload is signed with the refreshed
    credentials; when the endpoint cannot be reached the error of the
    transport comes out and the cache is as it was. *)
Theorem expiry_refreshes_never_fails (credentials : gmap string pyval)
  (c : storage_credentials) (method object_name : string)
  (file_object : option string) (preload_content : bool) (now date : datetime) :
  stores credentials c ->
  (forall expiration, exists call,
     _s3_request (<["Expiration" := expiration]> credentials) method object_name
       file_object preload_content date = Ok call /\
     _s3_request credentials method object_name file_object preload_content date
     = Ok call) /\
  (forall file, snd (_s3_upload object_name file date credentials) = credentials) /\
  snd (_s3_download_request object_name date credentials) = credentials /\
  (forall ack, fresh credentials now ->
     enable_s3 now ack credentials = (Ok tt, credentials)) /\
  (forall reason, stale credentials now ->
     enable_s3 now (RaisesURLError reason) credentials
     = (Err (URLError reason), credentials)) /\
  (forall (answer : response) (c' : storage_credentials) (expiration' file : string),
     stale credentials now ->
     decode_payload answer = Ok (ack_payload c' expiration') ->
     enable_s3 now (Returns answer) credentials
     = (Ok tt, refreshed credentials c' expiration') /\
     upload_to_storage now (Returns answer) object_name file date credentials
     = (_s3_request (refreshed credentials c' expiration') "PUT" object_name
          (Some file) true date,
        refreshed credentials c' expiration')).
Proof.
  intros Hstores.
  split; [|split; [|split; [|split; [|split]]]].
  - intros expiration. rewrite _s3_request_expiration.
    rewrite (_s3_request_eq _ _ _ _ _ _ _ Hstores). cbv zeta.
    eexists. split; reflexivity.
  - reflexivity.
  - reflexivity.
  - intros ack Hfresh. unfold enable_s3, bind.
    rewrite (fresh_not_expired _ _ Hfresh). reflexivity.
  - intros reason Hstale. unfold enable_s3, _get_s3_security_token, bind, lift.
    rewrite (stale_expired _ _ Hstale). reflexivity.
  - intros answer c' expiration' file Hstale Hanswer.
    unfold upload_to_storage, enable_s3, _get_s3_security_token, bind, lift.
    rewrite (stale_expired _ _ Hstale). cbn [_http_request].
    rewrite Hanswer, _setup_s3_client_eq.
    split; reflexivity.
Qed.

End CacheFacts.

(** ** The signer on concrete requests

    From here on the environment is the test double. *)

#[local] Existing Instance Double.env.

Lemma double_stores (session_token expiration : string) :
  stores (Double.credentials session_token expiration) (Double.record session_token).
Proof. repeat split; reflexivity. Qed.

Lemma authorization_is_sigv4_witness :
  exists call,
    _s3_request
      (Double.credentials "token" "2021-01-01T01:00:00Z") "PUT" "obj.mov"
      (Some "data"%string) true Double.new_year_2021 = Ok call /\
    dict_get "Authorization" (call_headers call)
    = Some (sigv4_authorization is_space "AKIDEXAMPLE" "secret"
              "us-east-1" "PUT" "/bucket/obj.mov"
              (s3_headers "oss.example.com" "token"
                 (Some "data"%string) Double.new_year_2021)
              Double.new_year_2021).
Proof.
  apply (authorization_is_sigv4
           (Double.credentials "token" "2021-01-01T01:00:00Z")
           (Double.record "token") "PUT" "obj.mov" (Some "data"%string) true
           Double.new_year_2021).
  - repeat split; reflexivity.
  - apply (bool_decide_unpack _). vm_compute. exact I.
Defined.

(** C1, as it is worded, fails: a tab is whitespace, and the signer leaves
    it in the value of the canonical header.  Here the session token holds
    one. *)
Lemma tab_is_not_collapsed :
  let token := ("to" +:+ tab +:+ "ken")%string in
  let headers :=
    s3_headers "oss.example.com" token None Double.new_year_2021 in
  exists call,
    _s3_request
      (Double.credentials token "2021-01-01T01:00:00Z") "GET" "obj.mov" None false
      Double.new_year_2021 = Ok call /\
    distinct_names headers /\
    In ("x-amz-security-token", token) (canonical_headers_of headers) /\
    In ("x-amz-security-token", "to ken") (sigv4_entries is_whitespace headers) /\
    canonical_request_of "GET" "/bucket/obj.mov" headers
    <> sigv4_canonical_request is_whitespace "GET" "/bucket/obj.mov" headers /\
    dict_get "Authorization" (call_headers call)
    <> Some (sigv4_authorization is_whitespace "AKIDEXAMPLE"
               "secret" "us-east-1" "GET" "/bucket/obj.mov" headers
               Double.new_year_2021).
Proof.
  cbv zeta. eexists. split; [vm_compute; reflexivity|].
  split; [apply default_names_distinct; reflexivity|].
  split; [vm_compute; tauto|].
  split; [vm_compute; tauto|].
  split; vm_compute; discriminate.
Qed.

Lemma content_md5_is_signed_witness :
  exists call,
    _s3_request
      (Double.credentials "token" "2021-01-01T01:00:00Z") "PUT" "obj.mov"
      (Some "data"%string) true Double.new_year_2021 = Ok call /\
    In ("Content-MD5", "md5<data>") (call_headers call) /\
    In "content-md5"
      (map fst (canonical_headers_of
         (s3_headers "oss.example.com" "token"
            (Some "data"%string) Double.new_year_2021))) /\
    exists authorization,
      dict_get "Authorization" (call_headers call) = Some authorization.
Proof.
  destruct (content_md5_is_signed
              (Double.credentials "token" "2021-01-01T01:00:00Z")
              (Double.record "token") "PUT" "obj.mov" "data" "md5<data>" true
              Double.new_year_2021)
    as (call & Hcall & Hheader & _ & Hsigned & _ & Hauthorization).
  - repeat split; reflexivity.
  - discriminate.
  - simpl. tauto.
  - reflexivity.
  - discriminate.
  - exists call. split; [exact Hcall|]. split; [exact Hheader|].
    split; [exact Hsigned|]. eexists. exact Hauthorization.
Defined.

(** C6, as it is worded, fails: an hour past the expiration of the cached
    credentials, which [_is_s3_expired] reports as expired, a download is
    signed with them. *)
Lemma expired_credentials_sign :
  let credentials := Double.credentials "token" "2021-01-01T00:00:00Z" in
  let date := Double.new_year_2021 + Double.hour in
  _parse_iso8601_string "2021-01-01T00:00:00Z"
  = Ok Double.new_year_2021 /\
  Double.new_year_2021 <= date /\
  _is_s3_expired date credentials = (Ok true, credentials) /\
  exists call,
    fst (_s3_download_request "obj.mov" date credentials)
    = Ok call /\
    dict_get "X-Amz-Security-Token" (call_headers call) = Some "token"%string.
Proof.
  cbv zeta. split; [reflexivity|]. split; [vm_compute; discriminate|].
  split; [reflexivity|].
  eexists. split; vm_compute; reflexivity.
Qed.

Lemma expiry_refreshes_never_fails_witness :
  let credentials := Double.credentials "token" "2021-01-01T00:00:00Z" in
  let date := Double.new_year_2021 + Double.hour in
  let answer :=
    {| status := 200;
       decode_payload :=
         Ok (ack_payload (Double.record "token2") "2021-01-01T02:00:00Z") |} in
  (exists call,
     _s3_request credentials "GET" "obj.mov" None false date
     = Ok call) /\
  enable_s3 (Double.new_year_2021 - Double.hour)
    (RaisesURLError "unreachable") credentials = (Ok tt, credentials) /\
  enable_s3 date (Returns answer) credentials
  = (Ok tt, refreshed credentials (Double.record "token2") "2021-01-01T02:00:00Z").
Proof.
  cbv zeta.
  destruct (expiry_refreshes_never_fails
              (Double.credentials "token" "2021-01-01T00:00:00Z")
              (Double.record "token") "GET" "obj.mov" None false
              (Double.new_year_2021 + Double.hour)
              (Double.new_year_2021 + Double.hour))
    as (Hsign & _ & _ & _ & _ & Hstale).
  { repeat split; reflexivity. }
  destruct (expiry_refreshes_never_fails
              (Double.credentials "token" "2021-01-01T00:00:00Z")
              (Double.record "token") "GET" "obj.mov" None false
              (Double.new_year_2021 - Double.hour)
              (Double.new_year_2021 + Double.hour))
    as (_ & _ & _ & Hfresh & _ & _).
  { repeat split; reflexivity. }
  split; [|split].
  - destruct (Hsign (PStr "2021-01-01T00:00:00Z")) as (call & _ & Hcall).
    exists call. exact Hcall.
  - apply Hfresh.
    exists "2021-01-01T00:00:00Z"%string, Double.new_year_2021.
    repeat split; first [discriminate | vm_compute; reflexivity].
  - apply (Hstale
             {| status := 200;
                decode_payload :=
                  Ok (ack_payload (Double.record "token2") "2021-01-01T02:00:00Z") |}
             (Double.record "token2") "2021-01-01T02:00:00Z" ""%string);
      [|reflexivity].
    right. exists "2021-01-01T00:00:00Z"%string, Double.new_year_2021.
    repeat split; first [discriminate | vm_compute; reflexivity].
Defined.

(** The names signed for a download, which has no body. *)
Example signed_names_without_body :
  String.concat ";"
    (dict_keys (canonical_headers_of
       (s3_headers "oss.example.com" "token" None Double.new_year_2021)))
  = "host;x-amz-content-sha256;x-amz-date;x-amz-security-token"%string.
Proof. reflexivity. Qed.

(** Runs of spaces, and only those, are collapsed. *)
Example runs_of_spaces :
  re_sub_spaces "a   b  c " = "a b c "%string /\
  re_sub_spaces ("a" +:+ tab +:+ tab +:+ "b") = ("a" +:+ tab +:+ tab +:+ "b")%string /\
  collapse is_whitespace ("a" +:+ tab +:+ tab +:+ "b") = "a b"%string.
Proof. repeat split; reflexivity. Qed.

(** * More of the client *)

(** ** The filter compiler, further *)

(** X1.  An operator token followed by triples with non-empty relations,
    [["or", t1, ..., tn]] or [["and", t1, ..., tn]] with [n] from 0 on,
    compiles to the group of that operator whose conditions are, in order,
    what the triples compile to on their own; alone, the token gives the
    group without conditions. *)
Theorem operator_led_triples_compile (token : string)
  (ts : list (string * string * pyval)) :
  token = "or"%string \/ token = "and"%string ->
  Forall (fun t => relation_of t <> ""%string) ts ->
  process_filters (PStr token :: map triple ts)
  = Ok (group_object (PStr token) (map wrapped_leaf_of ts)).
Proof.
  intros Htoken Hrel.
  rewrite process_filters_eq. cbv zeta. cbn [rest_of].
  rewrite py_in_operator.
  assert (Hin : String.eqb token "or" || String.eqb token "and" = true)
    by (destruct Htoken as [-> | ->]; reflexivity).
  rewrite Hin, forallb_triples, (process_each_triples _ Hrel).
  reflexivity.
Qed.

Lemma operator_led_triples_compile_witness :
  process_filters
    [PStr "or"; PList [PStr "name"; PStr "is"; PStr "Layout"];
     PList [PStr "status"; PStr "is"; PStr "wtg"]]
  = Ok (group_object (PStr "or")
          [group_object (PStr "and")
             [leaf_object (PStr "name") (PStr "is") (PList [PStr "Layout"])];
           group_object (PStr "and")
             [leaf_object (PStr "status") (PStr "is") (PList [PStr "wtg"])]])
  /\ process_filters [PStr "and"] = Ok (group_object (PStr "and") []).
Proof.
  split.
  - apply (operator_led_triples_compile "or"
             [("name", "is", PStr "Layout"); ("status", "is", PStr "wtg")]%string);
      [left; reflexivity | repeat constructor; discriminate].
  - apply (operator_led_triples_compile "and" []);
      [right; reflexivity | constructor].
Defined.

Lemma py_in_is_operator (head : pyval) :
  py_in head [PStr "or"; PStr "and"] = true -> is_operator head = true.
Proof.
  unfold py_in. cbn [existsb py_eq].
  destruct head; try discriminate.
  cbn [is_operator]. rewrite orb_false_r.
  rewrite (String.eqb_sym "or" s), (String.eqb_sym "and" s). exact id.
Qed.

Lemma well_grouped_group (operator : pyval) (conditions : list pyval) :
  is_operator operator = true ->
  Forall (fun c => well_grouped c = true) conditions ->
  well_grouped (group_object operator conditions) = true.
Proof.
  intros Hop Hall. cbn [group_object well_grouped String.eqb Ascii.eqb Bool.eqb andb].
  rewrite Hop. cbn [andb].
  apply orb_true_iff. right.
  induction Hall as [|c rest Hc _ IH]; [reflexivity|].
  rewrite Hc. exact IH.
Qed.

Lemma well_grouped_leaf (operator f0 f1 f2 : pyval) :
  is_operator operator = true ->
  truthy f1 = true ->
  well_grouped (group_object operator [leaf_object f0 f1 (values_of f2)]) = true.
Proof.
  intros Hop Hrel. unfold values_of.
  destruct (isinstance_list f2) eqn:Hlist; [destruct f2; try discriminate|];
    cbn [group_object leaf_object well_grouped is_leaf String.eqb Ascii.eqb
           Bool.eqb andb];
    rewrite Hop, Hrel; reflexivity.
Qed.

Lemma process_each_Forall (P : pyval -> Prop) (filters : list pyval) :
  Forall (fun f => forall out, process_filters_val f = Ok out -> P out) filters ->
  forall conditions, process_each filters = Ok conditions -> Forall P conditions.
Proof.
  induction 1 as [|f filters Hf _ IH]; cbn [process_each]; intros conditions.
  - intros [= <-]. constructor.
  - destruct (process_filters_val f) as [out|] eqn:Eout; [|discriminate].
    destruct (process_each filters) as [outs|]; [|discriminate].
    intros [= <-]. constructor; [apply Hf; reflexivity | apply IH; reflexivity].
Qed.

Lemma Forall_rest_of (P : pyval -> Prop) (expr : list pyval) :
  Forall P expr -> Forall P (rest_of expr).
Proof.
  intros Hall. destruct expr as [|head tail]; [constructor|].
  cbn [rest_of]. destruct (py_in head _); [|exact Hall].
  apply Forall_cons in Hall as [_ Htail]. exact Htail.
Qed.

Lemma process_filters_val_well_grouped (v out : pyval) :
  process_filters_val v = Ok out -> well_grouped out = true.
Proof.
  revert out. induction v as [| | | |l IH|] using pyval_list_ind;
    intros out; try discriminate.
  change (process_filters_val (PList l)) with (process_filters l).
  destruct l as [|head tail]; [discriminate|].
  rewrite process_filters_eq. cbv zeta.
  assert (Hop : is_operator
            (if py_in head [PStr "or"; PStr "and"] then head else PStr "and") = true).
  { destruct (py_in head [PStr "or"; PStr "and"]) eqn:Hin;
      [apply py_in_is_operator, Hin | reflexivity]. }
  destruct (forallb isinstance_list (rest_of (head :: tail))).
  - destruct (process_each (rest_of (head :: tail))) as [conditions|] eqn:Heach;
      [|discriminate].
    intros [= <-]. apply well_grouped_group; [exact Hop|].
    apply (process_each_Forall _ _ (Forall_rest_of _ _ IH) _ Heach).
  - destruct tail as [|f1 [|f2 [|f3 tail]]]; try discriminate.
    destruct (truthy f1) eqn:Hrel; [|discriminate].
    intros [= <-]. apply well_grouped_leaf; assumption.
Qed.

(** X2.  Whatever the expression, what [process_filters] returns is a group
    object whose operator is ["or"] or ["and"], and so is every condition
    below it, down to the groups that hold one leaf; a leaf has a relation
    that is true and a list of values. *)
Theorem compiled_filter_well_grouped (expr : list pyval) (out : pyval) :
  process_filters expr = Ok out -> well_grouped out = true.
Proof. apply process_filters_val_well_grouped. Qed.

Lemma compiled_filter_well_grouped_witness :
  well_grouped
    (group_object (PStr "or")
       [group_object (PStr "and")
          [leaf_object (PStr "name") (PStr "is") (PList [PStr "Layout"])];
        group_object (PStr "and")
          [group_object (PStr "and")
             [leaf_object (PStr "id") (PStr "in") (PList [PInt 1; PInt 2])]]])
  = true.
Proof.
  apply (compiled_filter_well_grouped
           [PStr "or"; PList [PStr "name"; PStr "is"; PStr "Layout"];
            PList [PList [PStr "id"; PStr "in"; PList [PInt 1; PInt 2]]]]).
  reflexivity.
Defined.

(** ** Result shaping, further *)

(** X3.  Grouping fails on a page of size 1.  When the paging reports
    [page_size == 1], the first row is a non-empty object and the first
    descriptor lists an id, [get_rows] hands [group_by] that row instead of
    the list of rows; the scan then walks the keys of the row, which are
    strings and have no [get]: [AttributeError]. *)
Theorem group_by_single_row_page_raises (payload paging row group : pydict pyval)
  (rest groups ids : list pyval) (key : string) (value id : pyval) :
  dict_get "rows" payload = Some (PList (PDict ((key, value) :: row) :: rest)) ->
  dict_get "paging" payload = Some (PDict paging) ->
  py_eq (page_size_of payload) (PInt 1) = true ->
  dict_get "groups" payload = Some (PList (PDict group :: groups)) ->
  dict_get "ids" group = Some (PList (id :: ids)) ->
  group_by (PDict payload) = Err AttributeError.
Proof.
  intros Hrows Hpaging Hsize Hgroups Hids.
  unfold group_by.
  rewrite (get_rows_eq _ _ Hrows (or_intror (ex_intro _ _ Hpaging))), Hsize.
  cbn [truthy andb py_index0 py_get]. rewrite Hgroups.
  cbn [py_iter scan_groups py_get]. rewrite Hids.
  reflexivity.
Qed.

Lemma group_by_single_row_page_raises_witness :
  group_by
    (PDict [("rows", PList [PDict [("id", PInt 7); ("name", PStr "Foo")]]);
            ("paging", PDict [("page", PInt 1); ("page_size", PInt 1)]);
            ("groups", PList [PDict [("display_name", PStr "A");
                                     ("ids", PList [PInt 7])]])]%string)
  = Err AttributeError.
Proof.
  eapply (group_by_single_row_page_raises _ _ _ _ _ _ _ "id" (PInt 7) (PInt 7));
    reflexivity.
Defined.

Lemma first_row_In (id : pyval) (rows : list pyval) (row : pyval) :
  first_row id rows = Some row -> In row rows /\ py_eq (row_id row) id = true.
Proof.
  unfold first_row. intros Hfind.
  apply find_some in Hfind. exact Hfind.
Qed.

Lemma children_of_bounds (ids rows : list pyval) :
  (length (children_of ids rows) <= length ids)%nat /\
  forall row, In row (children_of ids rows) ->
    In row rows /\ exists id, In id ids /\ py_eq (row_id row) id = true.
Proof.
  induction ids as [|id ids [IHlen IHin]]; cbn [children_of flat_map length].
  - split; [lia | intros row []].
  - fold (children_of ids rows).
    destruct (first_row id rows) as [found|] eqn:Hfirst; cbn [app length].
    + split; [lia|]. intros row [<- | Hin].
      * destruct (first_row_In _ _ _ Hfirst) as [Hrow Heq].
        split; [exact Hrow|]. exists id. split; [left; reflexivity | exact Heq].
      * destruct (IHin row Hin) as [Hrow (id' & Hid' & Heq)].
        split; [exact Hrow|]. exists id'. split; [right; exact Hid' | exact Heq].
    + split; [lia|]. intros row Hin.
      destruct (IHin row Hin) as [Hrow (id' & Hid' & Heq)].
      split; [exact Hrow|]. exists id'. split; [right; exact Hid' | exact Heq].
Qed.

(** X4.  [group_by] invents nothing: on a payload whose rows are a list of
    row objects, whose paging (absent, or an object) does not report a
    page size of 1 unless there are no rows, and whose groups are
    descriptors, it emits as many groups as there are descriptors; the
    group emitted for a descriptor carries its display name, and its
    children are rows of the payload, each with the id of one of the ids
    of the descriptor, and no more of them than the descriptor has ids. *)
Theorem group_by_children_bounds (payload : pydict pyval) (groups rows : list pyval) :
  dict_get "rows" payload = Some (PList rows) ->
  (dict_get "paging" payload = None \/
   exists paging, dict_get "paging" payload = Some (PDict paging)) ->
  py_eq (page_size_of payload) (PInt 1) = false \/ rows = [] ->
  dict_get "groups" payload = Some (PList groups) ->
  Forall (fun group => is_descriptor group = true) groups ->
  Forall (fun row => is_dict row = true) rows ->
  exists out,
    group_by (PDict payload) = Ok (PList out) /\
    length out = length groups /\
    forall (i : nat) group emitted,
      groups !! i = Some group -> out !! i = Some emitted ->
      exists children,
        emitted = PDict [("display_name"%string, group_name group);
                         ("children"%string, PList children)] /\
        (length children <= length (group_ids group))%nat /\
        forall row, In row children ->
          In row rows /\
          exists id, In id (group_ids group) /\ py_eq (row_id row) id = true.
Proof.
  intros Hlist Hpaging Hsize Hgroups Hdesc Hrows.
  exists (map (grouped rows) groups). split; [|split].
  - exact (group_by_eq _ _ _ Hlist Hpaging Hsize Hgroups Hdesc Hrows).
  - apply length_map.
  - intros i group emitted Hgroup Hemitted.
    rewrite list_lookup_fmap, Hgroup in Hemitted. injection Hemitted as <-.
    exists (children_of (group_ids group) rows).
    split; [reflexivity|]. apply children_of_bounds.
Qed.

Lemma group_by_children_bounds_witness :
  let shot := PDict [("id", PInt 1); ("name", PStr "shot")]%string in
  let groups :=
    [PDict [("display_name", PStr "A"); ("ids", PList [PInt 1; PInt 9])]%string] in
  exists out,
    group_by (PDict [("rows", PList [shot]); ("groups", PList groups)]%string)
    = Ok (PList out) /\
    length out = 1%nat.
Proof.
  cbv zeta.
  destruct (group_by_children_bounds
              [("rows", PList [PDict [("id", PInt 1); ("name", PStr "shot")]]);
               ("groups",
                PList [PDict [("display_name", PStr "A");
                              ("ids", PList [PInt 1; PInt 9])]])]%string
              [PDict [("display_name", PStr "A"); ("ids", PList [PInt 1; PInt 9])]%string]
              [PDict [("id", PInt 1); ("name", PStr "shot")]%string])
    as (out & Hout & Hlen & _);
    [reflexivity | left; reflexivity | left; reflexivity | reflexivity
    | repeat constructor | repeat constructor |].
  exists out. split; [exact Hout | exact Hlen].
Defined.

(** ** Reading the answers of the server *)

Section AnswerFacts.
Variable json_dumps : pyval -> string.

Lemma raise_request_failed_text {A} (text : string) :
  raise_request_failed json_dumps (A := A) (PStr text)
  = Err (RequestFailed ("Request Failed: " +:+ text)).
Proof. reflexivity. Qed.

(** X5.  A list of payloads whose first element reports a failure raises
    [RequestFailed] with the message of the server after ["Request Failed: "]:
    the message itself when it is a string, its detail when it is an object
    with a string under ["detail"].  Nothing is read from the payloads that
    follow, and no rows come out. *)
Theorem failed_payload_raises (first : pydict pyval) (others : list pyval)
  (success : pyval) (text : string) :
  dict_get "success" first = Some success ->
  truthy success = false ->
  (dict_get "message" first = Some (PStr text) \/
   exists message,
     dict_get "message" first = Some (PDict message) /\
     dict_get "detail" message = Some (PStr text) /\ text <> ""%string) ->
  _extract_payload json_dumps (PList (PDict first :: others))
  = Err (RequestFailed ("Request Failed: " +:+ text)).
Proof.
  intros Hsuccess Hfalse Hmessage.
  unfold _extract_payload. cbn [py_index0].
  assert (Htruthy : truthy (PDict first) = true)
    by (destruct first; [discriminate | reflexivity]).
  rewrite Htruthy. cbn [py_getitem py_get]. rewrite Hsuccess, Hfalse.
  destruct Hmessage as [-> | (message & -> & Hdetail & Hne)].
  - reflexivity.
  - unfold raise_request_failed, _extract_message. rewrite Hdetail.
    rewrite (truthy_relation _ Hne). reflexivity.
Qed.

(** X6.  A list of payloads whose first element reports success yields what
    the first element shapes to: its groups when it has some, through
    [group_by], its rows otherwise, through [get_rows].  The payloads that
    follow are dropped. *)
Theorem successful_payload_shaped (first : pydict pyval) (others : list pyval)
  (success : pyval) :
  dict_get "success" first = Some success ->
  truthy success = true ->
  _extract_payload json_dumps (PList (PDict first :: others))
  = match dict_get "groups" first with
    | Some groups =>
        if truthy groups then group_by (PDict first) else get_rows (PDict first)
    | None => get_rows (PDict first)
    end.
Proof.
  intros Hsuccess Htrue.
  unfold _extract_payload. cbn [py_index0].
  assert (Htruthy : truthy (PDict first) = true)
    by (destruct first; [discriminate | reflexivity]).
  rewrite Htruthy. cbn [py_getitem py_get]. rewrite Hsuccess, Htrue.
  destruct (dict_get "groups" first); reflexivity.
Qed.

End AnswerFacts.

Lemma failed_payload_raises_witness :
  _extract_payload json_dumps_double
    (PList [PDict [("success", PBool false);
                   ("message", PDict [("detail", PStr "no such entity")])];
            PDict [("success", PBool true); ("rows", PList [])]]%string)
  = Err (RequestFailed "Request Failed: no such entity").
Proof.
  apply (failed_payload_raises json_dumps_double _ _ (PBool false) "no such entity");
    [reflexivity | reflexivity |].
  right. eexists. split; [reflexivity|]. split; [reflexivity | discriminate].
Defined.

Lemma successful_payload_shaped_witness :
  _extract_payload json_dumps_double
    (PList [PDict [("success", PBool true);
                   ("rows", PList [PDict [("id", PInt 7)]]);
                   ("paging", PDict [("page_size", PInt 1)])];
            PDict [("success", PBool false)]]%string)
  = Ok (PDict [("id", PInt 7)]%string).
Proof.
  rewrite (successful_payload_shaped json_dumps_double _ _ (PBool true)); reflexivity.
Defined.

(** ** The request bodies *)

(** X7.  The body of a read request is a list of one object.  It always
    holds the request type ["read"], the entity type and the paging, as
    given; it holds the columns, the sorts, the grouping and the filter
    setting when they are given and true, and no such key otherwise; and it
    holds the compiled filters when filters are given, provided they
    compile. *)
Theorem read_payload_contents
  (entity_type fields filters sorts groups pages additional_filters compiled : pyval) :
  (truthy filters = true -> process_filters_of filters = Ok compiled) ->
  exists payload,
    build_read_payload entity_type fields filters sorts groups pages additional_filters
    = Ok (PList [PDict payload]) /\
    dict_get "request_type" payload = Some (PStr "read") /\
    dict_get "entity_type" payload = Some entity_type /\
    dict_get "paging" payload = Some pages /\
    dict_get "columns" payload = (if truthy fields then Some fields else None) /\
    dict_get "filters" payload = (if truthy filters then Some compiled else None) /\
    dict_get "sorts" payload = (if truthy sorts then Some sorts else None) /\
    dict_get "grouping" payload = (if truthy groups then Some groups else None) /\
    dict_get "filter_setting" payload
    = (if truthy additional_filters then Some additional_filters else None).
Proof.
  intros Hcompiled. unfold build_read_payload, get_pages.
  destruct (truthy filters); [rewrite (Hcompiled eq_refl)|];
    destruct (truthy fields), (truthy sorts), (truthy groups),
      (truthy additional_filters);
    eexists; (split; [reflexivity|]); repeat split; reflexivity.
Qed.

Lemma read_payload_contents_witness :
  exists payload,
    build_read_payload (PStr "Task") (PList [PStr "id"; PStr "name"])
      (PList [PStr "name"; PStr "is"; PStr "Layout"]) (PList []) (PList [])
      (PDict [("page", PInt 1); ("page_size", PInt 5)]%string) PNone
    = Ok (PList [PDict payload]) /\
    dict_get "filters" payload
    = Some (group_object (PStr "and")
              [leaf_object (PStr "name") (PStr "is") (PList [PStr "Layout"])]) /\
    dict_get "sorts" payload = None.
Proof.
  destruct (read_payload_contents (PStr "Task") (PList [PStr "id"; PStr "name"])
              (PList [PStr "name"; PStr "is"; PStr "Layout"]) (PList []) (PList [])
              (PDict [("page", PInt 1); ("page_size", PInt 5)]%string) PNone
              (group_object (PStr "and")
                 [leaf_object (PStr "name") (PStr "is") (PList [PStr "Layout"])]))
    as (payload & Hbuilt & _ & _ & _ & _ & Hfilters & Hsorts & _).
  - intros _. reflexivity.
  - exists payload. split; [exact Hbuilt|]. split; [exact Hfilters | exact Hsorts].
Defined.

(** X8.  The body of a create, update or delete request is a list of one
    object holding the request type and the entity type; the columns and
    the data are in it when they are true, and absent otherwise: an empty
    list of data leaves no ["data"] key. *)
Theorem crud_payload_contents (request_type entity_type fields data : pyval) :
  exists payload,
    build_payload request_type entity_type fields data = PList [PDict payload] /\
    dict_get "request_type" payload = Some request_type /\
    dict_get "entity_type" payload = Some entity_type /\
    dict_get "columns" payload = (if truthy fields then Some fields else None) /\
    dict_get "data" payload = (if truthy data then Some data else None).
Proof.
  unfold build_payload.
  destruct (truthy fields), (truthy data);
    eexists; (split; [reflexivity|]); repeat split; reflexivity.
Qed.

Section RequestFacts.
Variable json_dumps : pyval -> string.

(** X9.  A read whose filters are given and do not compile fails with the
    error of the compiler, whatever the server would answer: the request
    is not built. *)
Theorem read_fails_before_sending (srv : server) (async_mode : bool)
  (entity_type fields filters sorts groups pages additional_filters : pyval)
  (e : pyerr) :
  truthy filters = true ->
  process_filters_of filters = Err e ->
  read json_dumps srv async_mode entity_type fields filters sorts groups pages
    additional_filters
  = Err e.
Proof.
  intros Hgiven Herr. unfold read, build_read_payload.
  rewrite Hgiven, Herr.
  destruct (truthy fields); reflexivity.
Qed.

End RequestFacts.

Lemma read_fails_before_sending_witness :
  read json_dumps_double (fun _ => RaisesURLError "unreachable") false (PStr "Task")
    (PList []) (PList [PStr "name"; PStr "is"]) (PList []) (PList []) (PDict []) PNone
  = Err MalformedFilter.
Proof.
  apply read_fails_before_sending; reflexivity.
Defined.

(** ** Errors of the transport *)

Lemma py_index0_payload (payload : pyval) :
  (if isinstance_list payload then py_index0 payload else Ok payload)
  = match payload with
    | PList [] => Err IndexError
    | PList (first :: _) => Ok first
    | _ => Ok payload
    end.
Proof. destruct payload as [| | | |[|first rest]|]; reflexivity. Qed.

Lemma _process_http_error_raises (http_error : response) :
  exists e, _process_http_error http_error = Err e.
Proof.
  unfold _process_http_error.
  destruct (decode_payload http_error) as [payload|e]; [|eauto].
  rewrite py_index0_payload.
  assert (Hbody : forall p,
            exists e,
              (if truthy p then
                 do success <- py_get p "success" PNone;
                 if truthy success then
                   Err (UnknownError
                          "This request should be failed, maybe server get confused.")
                 else
                   do message <- py_get p "message" (PDict []);
                   do detail <- py_get message "detail" PNone;
                   match detail with
                   | PStr d => Err (RequestFailed ("ERROR: " +:+ d))
                   | _ => Err TypeError
                   end
               else Err (UnknownError "Should has failed detail but payload is empty."))
              = @Err response e).
  { intros p. destruct (truthy p); [|eauto].
    destruct (py_get p "success" PNone) as [success|]; [|eauto].
    destruct (truthy success); [eauto|].
    destruct (py_get p "message" (PDict [])) as [message|]; [|eauto].
    destruct (py_get message "detail" PNone) as [detail|]; [|eauto].
    destruct detail; eauto. }
  destruct payload as [| | | |[|first rest]|]; try apply Hbody. eauto.
Qed.

Lemma _http_request_raises (outcome : urlopen_outcome) :
  (forall r, outcome <> Returns r) -> exists e, _http_request outcome = Err e.
Proof.
  intros Hraises. destruct outcome as [r|http_error|reason]; cbn [_http_request].
  - destruct (Hraises r eq_refl).
  - apply _process_http_error_raises.
  - eauto.
Qed.

(** X10.  [_process_http_error] never returns: whatever the error response
    holds, it raises.  So [_http_request] returns a response exactly when
    [urlopen] returned that response. *)
Theorem http_error_always_raises :
  (forall http_error, exists e, _process_http_error http_error = Err e) /\
  (forall outcome r, _http_request outcome = Ok r <-> outcome = Returns r).
Proof.
  split; [exact _process_http_error_raises|].
  intros outcome r. split.
  - destruct outcome as [r'|http_error|reason]; cbn [_http_request].
    + intros [= ->]. reflexivity.
    + destruct (_process_http_error_raises http_error) as [e ->]. discriminate.
    + discriminate.
  - intros ->. reflexivity.
Qed.

(** X11.  What an error response raises: with an object (or a list that
    starts with an object) that reports a failure and carries a message
    object with a string under ["detail"], [RequestFailed] with ["ERROR: "]
    and that detail; with one that reports success, [UnknownError]; with an
    empty object, [UnknownError] as well. *)
Theorem http_error_classified (http_error : response) (payload : pyval)
  (first : pydict pyval) :
  decode_payload http_error = Ok payload ->
  payload = PDict first \/ (exists others, payload = PList (PDict first :: others)) ->
  (forall success, dict_get "success" first = Some success ->
     truthy success = true ->
     _http_request (RaisesHTTPError http_error)
     = Err (UnknownError "This request should be failed, maybe server get confused.")) /\
  (forall message detail,
     first <> [] ->
     (dict_get "success" first = None \/
      exists success, dict_get "success" first = Some success /\ truthy success = false) ->
     dict_get "message" first = Some (PDict message) ->
     dict_get "detail" message = Some (PStr detail) ->
     _http_request (RaisesHTTPError http_error)
     = Err (RequestFailed ("ERROR: " +:+ detail))) /\
  (first = [] ->
   _http_request (RaisesHTTPError http_error)
   = Err (UnknownError "Should has failed detail but payload is empty.")).
Proof.
  intros Hdecode Hshape.
  assert (Hfirst : (do p <- decode_payload http_error;
                    if isinstance_list p then py_index0 p else Ok p)
                   = Ok (PDict first)).
  { rewrite Hdecode. destruct Hshape as [-> | [others ->]]; reflexivity. }
  cbn [_http_request]. unfold _process_http_error.
  rewrite Hdecode in Hfirst |- *. rewrite Hfirst.
  split; [|split].
  - intros success Hsuccess Htrue.
    assert (Htruthy : truthy (PDict first) = true)
      by (destruct first; [discriminate | reflexivity]).
    rewrite Htruthy. cbn [py_get]. rewrite Hsuccess, Htrue. reflexivity.
  - intros message detail Hne Hfailed Hmessage Hdetail.
    assert (Htruthy : truthy (PDict first) = true)
      by (destruct first; [congruence | reflexivity]).
    rewrite Htruthy. cbn [py_get].
    destruct Hfailed as [-> | (success & -> & ->)];
      cbn [truthy]; rewrite Hmessage; cbn [py_get]; rewrite Hdetail; reflexivity.
  - intros ->. reflexivity.
Qed.

Lemma http_error_classified_witness :
  _http_request
    (RaisesHTTPError
       {| status := 403;
          decode_payload :=
            Ok (PList [PDict [("success", PBool false);
                              ("message", PDict [("detail", PStr "forbidden")])]]%string) |})
  = Err (RequestFailed "ERROR: forbidden").
Proof.
  destruct (http_error_classified
              {| status := 403;
                 decode_payload :=
                   Ok (PList [PDict [("success", PBool false);
                                     ("message", PDict [("detail", PStr "forbidden")])]]%string) |}
              (PList [PDict [("success", PBool false);
                             ("message", PDict [("detail", PStr "forbidden")])]]%string)
              [("success", PBool false);
               ("message", PDict [("detail", PStr "forbidden")])]%string
              eq_refl (or_intror (ex_intro _ [] eq_refl)))
    as (_ & Hfailed & _).
  apply (Hfailed [("detail", PStr "forbidden")]%string "forbidden").
  - discriminate.
  - right. exists (PBool false). split; reflexivity.
  - reflexivity.
  - reflexivity.
Defined.

(** ** Asynchronous tasks *)

Lemma polling_returns (transport : nat -> urlopen_outcome) (n fuel : nat)
  (last : response) :
  (forall k, (k < n)%nat -> exists r, transport k = Returns r /\ status r = 202) ->
  transport n = Returns last ->
  status last <> 202 ->
  (n < fuel)%nat ->
  _polling_http_request fuel transport = Returned last (replicate n POLLING_INTERVAL).
Proof.
  intros Hrunning Hlast Hstatus Hfuel. unfold _polling_http_request.
  replace fuel with (n + S (fuel - S n))%nat by lia.
  rewrite polling_loop_skips by exact Hrunning.
  cbn [polling_loop Nat.add app]. rewrite Hlast. cbn [_http_request].
  apply Z.eqb_neq in Hstatus. rewrite Hstatus. reflexivity.
Qed.

Section TaskFacts.
Variable json_dumps : pyval -> string.

(** X12.  When, after [n] answers "still running", the transport raises
    instead of answering (an HTTP error status, a connection that fails),
    polling ends there, after [n] sleeps, with the exception of
    [_http_request]: no answer is decoded, and there is no retry. *)
Theorem polling_ends_on_transport_error (transport : nat -> urlopen_outcome)
  (n fuel : nat) :
  (forall k, (k < n)%nat -> exists r, transport k = Returns r /\ status r = 202) ->
  (forall r, transport n <> Returns r) ->
  (n < fuel)%nat ->
  exists e,
    _http_request (transport n) = Err e /\
    _polling_http_request fuel transport = Raised e (replicate n POLLING_INTERVAL) /\
    polling_async_task json_dumps fuel transport
    = Ended (Err e) (replicate n POLLING_INTERVAL).
Proof.
  intros Hrunning Hraises Hfuel.
  destruct (_http_request_raises _ Hraises) as [e He].
  exists e. split; [exact He|].
  assert (Hpoll := polling_raises transport n fuel e Hrunning He Hfuel).
  split; [exact Hpoll|].
  unfold polling_async_task. rewrite Hpoll. reflexivity.
Qed.

(** X13.  Polling a task to its result.  When the transport answers [n]
    times "still running" and then with a response whose object reports
    success and whose data start with a payload that reports success and
    has no groups, [polling_async_task] ends after [n] sleeps with the
    rows of that payload as [get_rows] shapes them. *)
Theorem polling_async_task_rows (transport : nat -> urlopen_outcome) (n fuel : nat)
  (last : response) (answer first : pydict pyval) (others : list pyval)
  (success success' : pyval) :
  (forall k, (k < n)%nat -> exists r, transport k = Returns r /\ status r = 202) ->
  transport n = Returns last ->
  status last <> 202 ->
  decode_payload last = Ok (PDict answer) ->
  dict_get "success" answer = Some success -> truthy success = true ->
  dict_get "data" answer = Some (PList (PDict first :: others)) ->
  dict_get "success" first = Some success' -> truthy success' = true ->
  dict_get "groups" first = None ->
  (n < fuel)%nat ->
  polling_async_task json_dumps fuel transport
  = Ended (get_rows (PDict first)) (replicate n POLLING_INTERVAL).
Proof.
  intros Hrunning Hlast Hstatus Hdecode Hsuccess Htrue Hdata Hsuccess' Htrue'
    Hgroups Hfuel.
  unfold polling_async_task.
  rewrite (polling_returns _ _ _ _ Hrunning Hlast Hstatus Hfuel).
  unfold _process_async_task_response. rewrite Hdecode.
  cbn [py_getitem]. rewrite Hsuccess, Htrue, Hdata. cbn [negb].
  unfold _extract_payload. cbn [py_index0].
  assert (Htruthy : truthy (PDict first) = true)
    by (destruct first; [discriminate | reflexivity]).
  rewrite Htruthy. cbn [py_getitem py_get]. rewrite Hsuccess', Htrue', Hgroups.
  reflexivity.
Qed.

(** X14.  Polling a task to its failure.  When the response that ends the
    polling reports a failure with a string as message,
    [polling_async_task] raises [RequestFailed] with that message after
    ["Request Failed: "], after the [n] sleeps. *)
Theorem polling_async_task_failure (transport : nat -> urlopen_outcome) (n fuel : nat)
  (last : response) (answer : pydict pyval) (success : pyval) (text : string) :
  (forall k, (k < n)%nat -> exists r, transport k = Returns r /\ status r = 202) ->
  transport n = Returns last ->
  status last <> 202 ->
  decode_payload last = Ok (PDict answer) ->
  dict_get "success" answer = Some success -> truthy success = false ->
  dict_get "message" answer = Some (PStr text) ->
  (n < fuel)%nat ->
  polling_async_task json_dumps fuel transport
  = Ended (Err (RequestFailed ("Request Failed: " +:+ text)))
      (replicate n POLLING_INTERVAL).
Proof.
  intros Hrunning Hlast Hstatus Hdecode Hsuccess Hfalse Hmessage Hfuel.
  unfold polling_async_task.
  rewrite (polling_returns _ _ _ _ Hrunning Hlast Hstatus Hfuel).
  unfold _process_async_task_response. rewrite Hdecode.
  cbn [py_getitem py_get]. rewrite Hsuccess, Hfalse, Hmessage. reflexivity.
Qed.

(** X15.  Resolving and polling agree on a task that is over: when the
    first answer of the transport is not "still running" (a response of
    another status, or an exception), [polling_async_task] ends without a
    sleep, with what [resolve_async_task] gives on that answer. *)
Theorem polling_is_resolving_when_over (transport : nat -> urlopen_outcome)
  (fuel : nat) :
  (forall r, transport 0%nat = Returns r -> status r <> 202) ->
  (0 < fuel)%nat ->
  polling_async_task json_dumps fuel transport
  = Ended (resolve_async_task json_dumps (transport 0%nat)) [].
Proof.
  intros Hover Hfuel. destruct fuel as [|fuel]; [lia|].
  unfold polling_async_task, _polling_http_request, resolve_async_task.
  cbn [polling_loop].
  destruct (transport 0%nat) as [r|http_error|reason] eqn:Hfirst.
  - cbn [_http_request]. specialize (Hover r eq_refl).
    apply Z.eqb_neq in Hover. rewrite Hover. reflexivity.
  - cbn [_http_request].
    destruct (_process_http_error_raises http_error) as [e ->]. reflexivity.
  - reflexivity.
Qed.

End TaskFacts.

Lemma polling_ends_on_transport_error_witness :
  let running := {| status := 202; decode_payload := Ok (PDict []) |} in
  exists e,
    _polling_http_request 3
      (fun k => if (k <? 1)%nat then Returns running else RaisesURLError "reset")
    = Raised e [POLLING_INTERVAL].
Proof.
  cbv zeta.
  destruct (polling_ends_on_transport_error json_dumps_double
              (fun k => if (k <? 1)%nat
                        then Returns {| status := 202; decode_payload := Ok (PDict []) |}
                        else RaisesURLError "reset") 1 3)
    as (e & _ & Hraised & _).
  - intros k Hk. eexists. split.
    + destruct k as [|k]; [reflexivity | lia].
    + reflexivity.
  - intros r. discriminate.
  - lia.
  - exists e. exact Hraised.
Defined.

Lemma polling_async_task_rows_witness :
  let running := {| status := 202; decode_payload := Ok (PDict []) |} in
  let first :=
    [("success", PBool true);
     ("rows", PList [PDict [("id", PInt 7); ("name", PStr "Foo")]]);
     ("paging", PDict [("page_size", PInt 1)])]%string in
  let answer := [("success", PBool true); ("data", PList [PDict first])]%string in
  let done := {| status := 200; decode_payload := Ok (PDict answer) |} in
  polling_async_task json_dumps_double 4
    (fun k => if (k <? 2)%nat then Returns running else Returns done)
  = Ended (Ok (PDict [("id", PInt 7); ("name", PStr "Foo")]%string))
      [POLLING_INTERVAL; POLLING_INTERVAL].
Proof.
  intros running first answer done.
  rewrite (polling_async_task_rows json_dumps_double _ 2 4 done answer first []
             (PBool true) (PBool true)); try reflexivity.
  - intros k Hk. exists running. split.
    + destruct k as [|[|k]]; [reflexivity | reflexivity | lia].
    + reflexivity.
  - discriminate.
  - lia.
Defined.

Lemma polling_async_task_failure_witness :
  let failed :=
    {| status := 200;
       decode_payload :=
         Ok (PDict [("success", PBool false); ("message", PStr "name taken")]%string) |} in
  polling_async_task json_dumps_double 1 (fun _ => Returns failed)
  = Ended (Err (RequestFailed "Request Failed: name taken")) [].
Proof.
  cbv zeta.
  eapply (polling_async_task_failure json_dumps_double (fun _ => Returns _) 0 1).
  - intros k Hk. lia.
  - reflexivity.
  - discriminate.
  - reflexivity.
  - reflexivity.
  - reflexivity.
  - reflexivity.
  - lia.
Defined.

Lemma polling_is_resolving_when_over_witness :
  let gone := RaisesURLError "unreachable" in
  polling_async_task json_dumps_double 2 (fun _ => gone)
  = Ended (resolve_async_task json_dumps_double gone) [].
Proof.
  cbv zeta.
  apply (polling_is_resolving_when_over json_dumps_double (fun _ => RaisesURLError _) 2).
  - intros r. discriminate.
  - lia.
Defined.

(** ** The schema requests *)

(** The items of [data] are objects that have a name. *)
Lemma tests_named (items : list pyval) :
  Forall (fun d => exists o, d = PDict o /\ dict_get "name" o <> None) items ->
  tests (py_contains "name") items = Ok (map (fun _ => true) items).
Proof.
  induction 1 as [|d items (o & -> & Hname) _ IH]; cbn [tests map]; [reflexivity|].
  cbn [py_contains]. destruct (dict_get "name" o); [|congruence].
  rewrite IH. reflexivity.
Qed.

Lemma forallb_all_true {A} (items : list A) :
  forallb (fun b : bool => b) (map (fun _ => true) items) = true.
Proof. induction items as [|x items IH]; [reflexivity | exact IH]. Qed.

Lemma tests_unnamed (before after : list pyval) (o : pydict pyval) :
  Forall (fun d => is_dict d = true) (before ++ PDict o :: after) ->
  dict_get "name" o = None ->
  exists bs,
    tests (py_contains "name") (before ++ PDict o :: after) = Ok bs /\
    forallb (fun b => b) bs = false.
Proof.
  intros Hdicts Hname.
  induction before as [|d before IH]; cbn [app tests] in *.
  - apply Forall_cons in Hdicts as [_ Hafter].
    cbn [py_contains]. rewrite Hname.
    assert (Hrest : exists bs, tests (py_contains "name") after = Ok bs).
    { clear -Hafter. induction Hafter as [|d after Hd _ [bs IH]]; cbn [tests];
        [eauto|].
      destruct d; try discriminate. cbn [py_contains]. rewrite IH. eauto. }
    destruct Hrest as [bs ->]. exists (false :: bs). split; reflexivity.
  - apply Forall_cons in Hdicts as [Hd Hrest].
    destruct (IH Hrest) as (bs & -> & Hbs).
    destruct d; try discriminate. cbn [py_contains].
    eexists. split; [reflexivity|]. cbn [forallb]. rewrite Hbs.
    apply andb_false_r.
Qed.

Section SchemaFacts.
Variable json_dumps : pyval -> string.

(** X16.  [create_entity_type] sends nothing, and leaves the mode of the
    client as it is, when the data are rejected: an empty list of data, or
    a list of objects one of which has no ["name"], raises
    [AssertionError] whatever the server. *)
Theorem create_entity_type_rejects (srv : server) (async_mode : bool) :
  create_entity_type json_dumps srv (PList []) async_mode
  = (Err AssertionError, async_mode) /\
  forall (before after : list pyval) (o : pydict pyval),
    Forall (fun d => is_dict d = true) (before ++ PDict o :: after) ->
    dict_get "name" o = None ->
    create_entity_type json_dumps srv (PList (before ++ PDict o :: after)) async_mode
    = (Err AssertionError, async_mode).
Proof.
  split; [reflexivity|].
  intros before after o Hdicts Hname.
  unfold create_entity_type, schema_request, assert_all. cbn [py_iter].
  destruct (tests_unnamed _ _ _ Hdicts Hname) as (bs & -> & ->).
  reflexivity.
Qed.

(** X17.  A schema request that fails once sent leaves the client in
    asynchronous mode.  With data that pass the assertions,
    [create_entity_type] sends the create request with the asynchronous
    flag set; when sending raises, the exception comes out and
    [_async_mode] is true afterwards, whatever it was before. *)
Theorem create_entity_type_failure_leaves_async_on (srv : server)
  (items : list pyval) (async_mode : bool) (e : pyerr) :
  items <> [] ->
  Forall (fun d => exists o, d = PDict o /\ dict_get "name" o <> None) items ->
  _send_request json_dumps srv true
    (build_payload (PStr "create") (PStr "EntityType") PNone (PList items))
  = Err e ->
  create_entity_type json_dumps srv (PList items) async_mode = (Err e, true).
Proof.
  intros Hne Hnamed Hsend.
  unfold create_entity_type, schema_request, assert_all. cbn [py_iter].
  rewrite (tests_named _ Hnamed), forallb_all_true.
  unfold _request_schema. cbn [isinstance_list negb].
  assert (Htruthy : truthy (PList items) = true)
    by (destruct items; [congruence | reflexivity]).
  rewrite Htruthy. cbn [negb].
  change (py_in (PStr "EntityType") [PStr "EntityType"; PStr "Field"]) with true.
  cbn [negb]. unfold crud. cbn [verb_name]. rewrite Hsend. reflexivity.
Qed.

(** X18.  A schema request that succeeds returns the task id and leaves
    the client in synchronous mode.  With data that pass the assertions,
    when the server answers the create request, flagged asynchronous, with
    an object that reports success, [create_entity_type] returns the
    ["task_id"] of the answer, and [_async_mode] is false afterwards,
    whatever it was before. *)
Theorem create_entity_type_returns_task_id (srv : server) (items : list pyval)
  (async_mode : bool) (r : response) (answer : pydict pyval)
  (success task_id : pyval) :
  items <> [] ->
  Forall (fun d => exists o, d = PDict o /\ dict_get "name" o <> None) items ->
  srv {| requests :=
           build_payload (PStr "create") (PStr "EntityType") PNone (PList items);
         async := true |} = Returns r ->
  decode_payload r = Ok (PDict answer) ->
  dict_get "success" answer = Some success -> truthy success = true ->
  dict_get "task_id" answer = Some task_id ->
  create_entity_type json_dumps srv (PList items) async_mode = (Ok task_id, false).
Proof.
  intros Hne Hnamed Hsrv Hdecode Hsuccess Htrue Htask.
  unfold create_entity_type, schema_request, assert_all. cbn [py_iter].
  rewrite (tests_named _ Hnamed), forallb_all_true.
  unfold _request_schema. cbn [isinstance_list negb].
  assert (Htruthy : truthy (PList items) = true)
    by (destruct items; [congruence | reflexivity]).
  rewrite Htruthy. cbn [negb].
  change (py_in (PStr "EntityType") [PStr "EntityType"; PStr "Field"]) with true.
  cbn [negb]. unfold crud, _send_request. cbn [verb_name]. rewrite Hsrv.
  cbn [_http_request]. unfold _process_response. rewrite Hdecode.
  unfold _processs_async_payload. cbn [py_getitem].
  rewrite Hsuccess, Htrue, Htask. reflexivity.
Qed.

End SchemaFacts.

Lemma create_entity_type_rejects_witness :
  create_entity_type json_dumps_double (fun _ => RaisesURLError "unreachable")
    (PList [PDict [("name", PStr "Shot")]; PDict [("help", PStr "no name")]]%string)
    false
  = (Err AssertionError, false).
Proof.
  apply (proj2 (create_entity_type_rejects json_dumps_double _ false)
           [PDict [("name", PStr "Shot")]%string] [] [("help", PStr "no name")]%string).
  - repeat constructor.
  - reflexivity.
Defined.

Lemma create_entity_type_failure_leaves_async_on_witness :
  create_entity_type json_dumps_double (fun _ => RaisesURLError "unreachable")
    (PList [PDict [("name", PStr "Shot")]]%string) false
  = (Err (URLError "unreachable"), true).
Proof.
  apply create_entity_type_failure_leaves_async_on.
  - discriminate.
  - repeat constructor. eexists. split; [reflexivity | discriminate].
  - reflexivity.
Defined.

Lemma create_entity_type_returns_task_id_witness :
  let accepted :=
    {| status := 200;
       decode_payload :=
         Ok (PDict [("success", PBool true); ("task_id", PStr "abc")]%string) |} in
  create_entity_type json_dumps_double
    (fun request => if async request then Returns accepted
                    else RaisesURLError "synchronous")
    (PList [PDict [("name", PStr "Foo")]]%string) true
  = (Ok (PStr "abc"), false).
Proof.
  intros accepted.
  apply (create_entity_type_returns_task_id json_dumps_double _ _ true accepted
           [("success", PBool true); ("task_id", PStr "abc")]%string (PBool true)).
  - discriminate.
  - repeat constructor. eexists. split; [reflexivity | discriminate].
  - reflexivity.
  - reflexivity.
  - reflexivity.
  - reflexivity.
  - reflexivity.
Defined.

(** ** The credentials cache, further *)

Section CacheFurther.
Context {env : Env}.

(** X19.  Signing with an incomplete cache raises [KeyError] for the first
    entry that is missing, in the order [EndPoint], [Region], [Bucket],
    [AccessKeyId], [SecretAccessKey], [Secure], [SessionToken]; with the
    empty cache of a client that never refreshed, for [EndPoint]. *)
Theorem signing_needs_every_entry (credentials : gmap string pyval) (key : string)
  (method object_name : string) (file_object : option string)
  (preload_content : bool) (date : datetime) :
  first_missing credentials signer_keys = Some key ->
  _s3_request credentials method object_name file_object preload_content date
  = Err (KeyError key).
Proof.
  unfold signer_keys, _s3_request, cred. cbn [first_missing].
  repeat match goal with
         | |- context [credentials !! ?k] =>
             destruct (credentials !! k); [|intros [= <-]; reflexivity]
         end.
  discriminate.
Qed.

(** X20.  An answer of the [/cloud/ack] endpoint that has the four outer
    fields and no ["ack"] leaves the cache half refreshed:
    [_setup_s3_client] raises [KeyError] once it has stored the new
    endpoint, flag, bucket and region, so that the cache then holds them
    beside the keys, the token and the expiration it had. *)
Theorem answer_without_ack_half_refreshes (credentials : gmap string pyval)
  (data : pydict pyval) (end_point secure bucket region : pyval) :
  dict_get "EndPoint" data = Some end_point ->
  dict_get "Secure" data = Some secure ->
  dict_get "Bucket" data = Some bucket ->
  dict_get "Region" data = Some region ->
  dict_get "ack" data = None ->
  exists cache,
    _setup_s3_client (PDict data) credentials = (Err (KeyError "ack"), cache) /\
    cache !! "EndPoint" = Some end_point /\
    cache !! "Secure" = Some secure /\
    cache !! "Bucket" = Some bucket /\
    cache !! "Region" = Some region /\
    cache !! "AccessKeyId" = credentials !! "AccessKeyId" /\
    cache !! "SecretAccessKey" = credentials !! "SecretAccessKey" /\
    cache !! "SessionToken" = credentials !! "SessionToken" /\
    cache !! "Expiration" = credentials !! "Expiration".
Proof.
  intros Hep Hsecure Hbucket Hregion Hack.
  eexists. split.
  - unfold _setup_s3_client, bind, assign, ack_item. cbn [py_getitem].
    rewrite Hep, Hsecure, Hbucket, Hregion, Hack. reflexivity.
  - repeat split; simplify_map_eq; reflexivity.
Qed.

(** X21.  A complete answer is stored as it is.  When the answer has the
    four outer fields and an ["ack"] object with the four inner ones,
    [_setup_s3_client] succeeds; the eight entries of the cache then read
    back the values of the answer, every other entry of the cache is
    untouched, and storing the same answer again changes nothing. *)
Theorem complete_answer_stored (credentials : gmap string pyval)
  (data ack : pydict pyval)
  (end_point secure bucket region access_key secret_key token expiration : pyval) :
  dict_get "EndPoint" data = Some end_point ->
  dict_get "Secure" data = Some secure ->
  dict_get "Bucket" data = Some bucket ->
  dict_get "Region" data = Some region ->
  dict_get "ack" data = Some (PDict ack) ->
  dict_get "AccessKeyId" ack = Some access_key ->
  dict_get "SecretAccessKey" ack = Some secret_key ->
  dict_get "SessionToken" ack = Some token ->
  dict_get "Expiration" ack = Some expiration ->
  exists cache,
    _setup_s3_client (PDict data) credentials = (Ok tt, cache) /\
    map (fun key => cache !! key) cached_keys
    = map Some [end_point; secure; bucket; region; access_key; secret_key; token;
                expiration] /\
    (forall key, ~ In key cached_keys -> cache !! key = credentials !! key) /\
    _setup_s3_client (PDict data) cache = (Ok tt, cache).
Proof.
  intros Hep Hsecure Hbucket Hregion Hack Hak Hsk Htoken Hexp.
  assert (Hrun : forall c,
            _setup_s3_client (PDict data) c
            = (Ok tt,
               <["Expiration" := expiration]>
               (<["SessionToken" := token]>
               (<["SecretAccessKey" := secret_key]>
               (<["AccessKeyId" := access_key]>
               (<["Region" := region]>
               (<["Bucket" := bucket]>
               (<["Secure" := secure]>
               (<["EndPoint" := end_point]> c))))))))).
  { intros c. unfold _setup_s3_client, bind, assign, ack_item. cbn [py_getitem].
    rewrite Hep, Hsecure, Hbucket, Hregion, Hack. cbn [py_getitem].
    rewrite Hak, Hsk, Htoken, Hexp. reflexivity. }
  eexists. split; [apply Hrun|]. split; [|split].
  - cbn [map cached_keys]. repeat f_equal; simplify_map_eq; reflexivity.
  - intros key Hkey. cbn [cached_keys In] in Hkey.
    repeat (rewrite lookup_insert_ne by (intros <-; tauto)). reflexivity.
  - rewrite Hrun. f_equal. apply map_eq. intros key.
    repeat match goal with
           | |- context [<[?k := _]> _ !! key] =>
               destruct (decide (k = key)) as [<- | ?];
               [simplify_map_eq; reflexivity |
                rewrite (lookup_insert_ne _ k key) by assumption]
           end.
    reflexivity.
Qed.

(** X22.  The first upload of a client.  From the empty cache, when the
    [/cloud/ack] endpoint answers with a credentials record, the upload
    refreshes the cache and is signed with that record: a [PUT] of the file
    to [/bucket/object] on the endpoint of the record, carrying its session
    token, whatever expiration the record has. *)
Theorem first_upload_refreshes_and_signs (answer : response)
  (c : storage_credentials) (expiration url file : string) (now date : datetime) :
  decode_payload answer = Ok (ack_payload c expiration) ->
  exists call,
    upload_to_storage now (Returns answer) url file date ∅
    = (Ok call, refreshed ∅ c expiration) /\
    call_method call = "PUT"%string /\
    netloc (call_url call) = endpoint c /\
    path (call_url call) = object_path c url /\
    call_body call = Some file /\
    dict_get "X-Amz-Security-Token" (call_headers call) = Some (session_token c).
Proof.
  intros Hanswer.
  unfold upload_to_storage, enable_s3, _get_s3_security_token, bind, lift.
  rewrite (stale_expired ∅ now (or_introl (lookup_empty _))).
  cbn [_http_request]. rewrite Hanswer, _setup_s3_client_eq.
  unfold ret, _s3_upload.
  rewrite (_s3_request_eq _ c _ _ _ _ _ (proj1 (refreshed_stores ∅ c expiration))).
  cbv zeta. eexists. split; [reflexivity|].
  cbn [call_method call_url call_body call_headers netloc path].
  repeat split.
  apply dict_get_http_headers_str.
  rewrite dict_get_set_ne by discriminate.
  unfold s3_headers. rewrite dict_get_set_ne by discriminate.
  apply dict_get_set_eq.
Qed.

End CacheFurther.

#[local] Existing Instance Double.env.

Lemma signing_needs_every_entry_witness :
  _s3_request ∅ "GET" "obj.mov" None false Double.new_year_2021
  = Err (KeyError "EndPoint") /\
  _s3_request (delete "Secure" (Double.credentials "token" "2021-01-01T01:00:00Z"))
    "GET" "obj.mov" None false Double.new_year_2021
  = Err (KeyError "Secure").
Proof.
  split; apply signing_needs_every_entry; reflexivity.
Defined.

Lemma answer_without_ack_half_refreshes_witness :
  exists cache,
    _setup_s3_client
      (PDict [("EndPoint", PStr "new.example.com"); ("Secure", PBool false);
              ("Bucket", PStr "other"); ("Region", PStr "eu-west-1")]%string)
      (Double.credentials "token" "2021-01-01T01:00:00Z")
    = (Err (KeyError "ack"), cache) /\
    cache !! "EndPoint" = Some (PStr "new.example.com") /\
    cache !! "SessionToken" = Some (PStr "token").
Proof.
  destruct (answer_without_ack_half_refreshes
              (Double.credentials "token" "2021-01-01T01:00:00Z")
              [("EndPoint", PStr "new.example.com"); ("Secure", PBool false);
               ("Bucket", PStr "other"); ("Region", PStr "eu-west-1")]%string
              (PStr "new.example.com") (PBool false) (PStr "other") (PStr "eu-west-1"))
    as (cache & Hrun & Hep & _ & _ & _ & _ & _ & Htoken & _);
    try reflexivity.
  exists cache. split; [exact Hrun|]. split; [exact Hep|].
  rewrite Htoken. reflexivity.
Defined.

Lemma complete_answer_stored_witness :
  exists cache,
    _setup_s3_client (ack_payload (Double.record "fresh") "2021-01-01T02:00:00Z")
      (Double.credentials "token" "2021-01-01T01:00:00Z")
    = (Ok tt, cache) /\
    _setup_s3_client (ack_payload (Double.record "fresh") "2021-01-01T02:00:00Z") cache
    = (Ok tt, cache).
Proof.
  destruct (complete_answer_stored
              (Double.credentials "token" "2021-01-01T01:00:00Z")
              [("EndPoint", PStr "oss.example.com"); ("Secure", PBool true);
               ("Bucket", PStr "bucket"); ("Region", PStr "us-east-1");
               ("ack", PDict [("AccessKeyId", PStr "AKIDEXAMPLE");
                              ("SecretAccessKey", PStr "secret");
                              ("SessionToken", PStr "fresh");
                              ("Expiration", PStr "2021-01-01T02:00:00Z")])]%string
              [("AccessKeyId", PStr "AKIDEXAMPLE");
               ("SecretAccessKey", PStr "secret");
               ("SessionToken", PStr "fresh");
               ("Expiration", PStr "2021-01-01T02:00:00Z")]%string
              (PStr "oss.example.com") (PBool true) (PStr "bucket") (PStr "us-east-1")
              (PStr "AKIDEXAMPLE") (PStr "secret") (PStr "fresh")
              (PStr "2021-01-01T02:00:00Z"))
    as (cache & Hrun & _ & _ & Hagain); try reflexivity.
  exists cache. split; [exact Hrun | exact Hagain].
Defined.

Lemma first_upload_refreshes_and_signs_witness :
  exists call,
    upload_to_storage Double.new_year_2021
      (Returns {| status := 200;
                  decode_payload :=
                    Ok (ack_payload (Double.record "fresh") "2021-01-01T02:00:00Z") |})
      "shots/obj.mov" "data" Double.new_year_2021 ∅
    = (Ok call, refreshed ∅ (Double.record "fresh") "2021-01-01T02:00:00Z") /\
    path (call_url call) = "/bucket/shots/obj.mov"%string.
Proof.
  destruct (first_upload_refreshes_and_signs
              {| status := 200;
                 decode_payload :=
                   Ok (ack_payload (Double.record "fresh") "2021-01-01T02:00:00Z") |}
              (Double.record "fresh") "2021-01-01T02:00:00Z" "shots/obj.mov" "data"
              Double.new_year_2021 Double.new_year_2021 eq_refl)
    as (call & Hcall & _ & _ & Hpath & _).
  exists call. split; [exact Hcall | exact Hpath].
Defined.

(** ** The canonical headers, further *)

Lemma canonical_step_keys (acc : pydict string) (item : string * hval) (n : string) :
  In n (dict_keys (canonical_step acc item)) <->
  In n (dict_keys acc) \/ (kept item = true /\ lower (fst item) = n).
Proof.
  unfold canonical_step, kept.
  destruct (negb (existsb (String.eqb (lower (fst item))) excluded)).
  - rewrite dict_keys_set. intuition congruence.
  - intuition congruence.
Qed.

Lemma canonical_fold_keys (headers : pydict hval) (n : string) :
  forall acc : pydict string,
  In n (dict_keys (fold_left canonical_step headers acc)) <->
  In n (dict_keys acc) \/
  exists item, In item headers /\ kept item = true /\ lower (fst item) = n.
Proof.
  induction headers as [|item headers IH]; intros acc; cbn [fold_left].
  - split; [tauto | intros [Hin | (item & [] & _)]; exact Hin].
  - rewrite IH, canonical_step_keys. split.
    + intros [[Hin | [Hkept Hname]] | (item' & Hin & Hkept & Hname)].
      * left. exact Hin.
      * right. exists item. split; [left; reflexivity | split; assumption].
      * right. exists item'. split; [right; exact Hin | split; assumption].
    + intros [Hin | (item' & [<- | Hin] & Hkept & Hname)].
      * left. left. exact Hin.
      * left. right. split; assumption.
      * right. exists item'. split; [exact Hin | split; assumption].
Qed.

(** The names of the canonical headers: the lower-cased names of the
    headers that are not excluded. *)
Lemma canonical_names (headers : pydict hval) (n : string) :
  In n (dict_keys (canonical_headers_of headers)) <->
  exists item, In item headers /\ kept item = true /\ lower (fst item) = n.
Proof.
  unfold canonical_headers_of, dict_keys. rewrite in_map_iff. split.
  - intros (entry & Hname & Hin). apply In_sorted_by in Hin.
    assert (Hkey : In n (dict_keys (fold_left canonical_step headers []))).
    { apply in_map_iff. exists entry. split; assumption. }
    apply canonical_fold_keys in Hkey as [[] | Hitem]. exact Hitem.
  - intros Hitem.
    assert (Hkey : In n (dict_keys (fold_left canonical_step headers [])))
      by (apply canonical_fold_keys; right; exact Hitem).
    apply in_map_iff in Hkey as (entry & Hname & Hin).
    exists entry. split; [exact Hname|]. apply In_sorted_by, Hin.
Qed.

Lemma dict_keys_set_same {V} (key : string) (value : V) (d : pydict V) :
  In key (dict_keys d) -> dict_keys (dict_set key value d) = dict_keys d.
Proof.
  induction d as [|[k v] d IH]; cbn [dict_set dict_keys map In fst]; [tauto|].
  destruct (String.eqb k key) eqn:E; cbn [map fst]; [reflexivity|].
  apply String.eqb_neq in E. intros [Heq | Hin]; [congruence|].
  unfold dict_keys in IH. rewrite (IH Hin). reflexivity.
Qed.

Lemma dict_set_NoDup {V} (key : string) (value : V) (d : pydict V) :
  NoDup (dict_keys d) -> NoDup (dict_keys (dict_set key value d)).
Proof.
  intros Hnodup.
  destruct (in_dec String.string_dec key (dict_keys d)) as [Hin | Hfresh].
  - rewrite (dict_keys_set_same _ _ _ Hin). exact Hnodup.
  - rewrite (dict_set_fresh _ _ _ Hfresh). unfold dict_keys. rewrite map_app.
    apply NoDup_app. split; [exact Hnodup|]. split.
    + intros x Hx Hx'. apply list_elem_of_singleton in Hx'. subst x.
      apply Hfresh, list_elem_of_In, Hx.
    + apply NoDup_singleton.
Qed.

Lemma canonical_fold_NoDup (headers : pydict hval) :
  forall acc : pydict string,
  NoDup (dict_keys acc) -> NoDup (dict_keys (fold_left canonical_step headers acc)).
Proof.
  induction headers as [|item headers IH]; intros acc Hnodup; cbn [fold_left];
    [exact Hnodup|].
  apply IH. unfold canonical_step.
  destruct (negb _); [apply dict_set_NoDup|]; exact Hnodup.
Qed.

Lemma ltb_total (a b : string) : a <> b -> String.ltb a b = false -> String.ltb b a = true.
Proof.
  unfold String.ltb. intros Hne Hlt.
  pose proof (String.compare_antisym a b) as Hopp.
  destruct (String.compare b a) eqn:E; cbn [CompOpp] in Hopp.
  - apply String.compare_eq_iff in E. congruence.
  - reflexivity.
  - rewrite Hopp in Hlt. discriminate.
Qed.

Lemma item_leb_ltb (x y : string * string) :
  fst x <> fst y -> item_leb x y = String.ltb (fst x) (fst y).
Proof.
  intros Hne. unfold item_leb.
  apply String.eqb_neq in Hne. rewrite Hne. apply orb_false_r.
Qed.

Lemma increasing_cons (a : string) (names : list string) :
  increasing (a :: names) = true <->
  match names with [] => True | b :: _ => String.ltb a b = true end /\
  increasing names = true.
Proof.
  destruct names as [|b names]; cbn [increasing].
  - tauto.
  - rewrite andb_true_iff. tauto.
Qed.

Lemma insert_sorted_increasing (x : string * string) (l : list (string * string)) :
  increasing (map fst l) = true ->
  ~ In (fst x) (map fst l) ->
  increasing (map fst (insert_sorted item_leb x l)) = true /\
  match insert_sorted item_leb x l with
  | [] => False
  | first :: _ => first = x \/ (exists rest, l = first :: rest)
  end.
Proof.
  induction l as [|y l IH]; cbn [insert_sorted map In]; intros Hinc Hfresh.
  - split; [reflexivity | left; reflexivity].
  - assert (Hne : fst x <> fst y) by (intros E; apply Hfresh; left; symmetry; exact E).
    rewrite (item_leb_ltb _ _ Hne).
    apply increasing_cons in Hinc as [Hhead Htail].
    destruct (String.ltb (fst x) (fst y)) eqn:Hlt.
    + split; [|left; reflexivity].
      cbn [map]. apply increasing_cons. split; [exact Hlt|].
      apply increasing_cons. split; assumption.
    + destruct (IH Htail (fun Hin => Hfresh (or_intror Hin))) as [Hsorted Hfirst].
      split; [|right; eexists; reflexivity].
      cbn [map]. apply increasing_cons. split; [|exact Hsorted].
      destruct (insert_sorted item_leb x l) as [|first rest] eqn:Hins; [exact I|].
      cbn [map]. destruct Hfirst as [-> | [rest' ->]].
      * apply ltb_total; [congruence | exact Hlt].
      * exact Hhead.
Qed.

Lemma sorted_by_increasing (l : list (string * string)) :
  NoDup (map fst l) -> increasing (map fst (sorted_by item_leb l)) = true.
Proof.
  induction l as [|x l IH]; cbn [sorted_by foldr map]; [reflexivity|].
  intros Hnodup. apply NoDup_cons in Hnodup as [Hfresh Hnodup].
  fold (sorted_by item_leb l).
  apply insert_sorted_increasing; [exact (IH Hnodup)|].
  intros Hin. apply Hfresh, list_elem_of_In.
  apply in_map_iff in Hin as (y & Hy & Hin). apply In_sorted_by in Hin.
  apply in_map_iff. exists y. split; assumption.
Qed.

(** X23.  Whatever the headers of a request, the names of its canonical
    headers, in the order in which they are signed, are strictly
    increasing in the order of Python on strings: they are sorted, and no
    name comes twice. *)
Theorem canonical_names_increasing (headers : pydict hval) :
  increasing (dict_keys (canonical_headers_of headers)) = true.
Proof.
  unfold canonical_headers_of, dict_keys.
  apply sorted_by_increasing.
  apply (canonical_fold_NoDup headers []). constructor.
Qed.

Lemma kept_key (name : string) (v v' : hval) : kept (name, v) = kept (name, v').
Proof. reflexivity. Qed.

Lemma filter_kept_dict_set (key : string) (value : hval) (headers : pydict hval) :
  List.filter kept (dict_set key value headers)
  = if kept (key, value) then dict_set key value (List.filter kept headers)
    else List.filter kept headers.
Proof.
  induction headers as [|[name v] headers IH]; cbn [dict_set List.filter].
  - destruct (kept (key, value)); reflexivity.
  - destruct (String.eqb name key) eqn:E.
    + apply String.eqb_eq in E. subst name. cbn [List.filter].
      rewrite (kept_key key v value).
      destruct (kept (key, value)); [|reflexivity].
      cbn [dict_set]. rewrite String.eqb_refl. reflexivity.
    + cbn [List.filter]. rewrite IH.
      destruct (kept (name, v)), (kept (key, value)); try reflexivity.
      cbn [dict_set]. rewrite E. reflexivity.
Qed.

Lemma canonical_fold_filter (headers : pydict hval) :
  forall acc : pydict string,
  fold_left canonical_step headers acc
  = fold_left canonical_step (List.filter kept headers) acc.
Proof.
  induction headers as [|item headers IH]; intros acc; cbn [fold_left List.filter];
    [reflexivity|].
  destruct (kept item) eqn:Hkept; cbn [fold_left].
  - apply IH.
  - rewrite (canonical_step_excluded _ _ Hkept). apply IH.
Qed.

Lemma canonical_headers_filter (headers : pydict hval) :
  canonical_headers_of headers = canonical_headers_of (List.filter kept headers).
Proof.
  unfold canonical_headers_of. rewrite canonical_fold_filter. reflexivity.
Qed.

Section SignerFurther.
Context {env : Env}.

Ltac reach :=
  repeat first [apply dict_keys_set; left; reflexivity | apply dict_keys_set; right].

Lemma s3_headers_names (end_point session_token : string)
  (file_object : option string) (date : datetime) (name : string) :
  In name ["Host"; "x-amz-content-sha256"; "X-Amz-Security-Token"; "x-amz-date"]%string ->
  In name (dict_keys (s3_headers end_point session_token file_object date)).
Proof.
  intros Hname. unfold s3_headers.
  destruct file_object as [[|c rest]|];
    destruct (if hval_truthy _ then None else _md5sum_hash _) as [[|c' rest']|];
    cbn [In] in Hname;
    repeat (destruct Hname as [<- | Hname]; [reach|]);
    destruct Hname.
Qed.

(** X24.  Whatever the request, the body and the headers the helper
    contributes, the signed header names hold [host],
    [x-amz-content-sha256], [x-amz-date] and [x-amz-security-token], and
    never [authorization], [content-type], [content-length] or
    [user-agent]. *)
Theorem required_headers_signed (end_point session_token : string)
  (file_object : option string) (date : datetime) :
  let names :=
    dict_keys (canonical_headers_of
                 (s3_headers end_point session_token file_object date)) in
  (forall n,
     In n ["host"; "x-amz-content-sha256"; "x-amz-date"; "x-amz-security-token"]%string ->
     In n names) /\
  (forall n, In n excluded -> ~ In n names).
Proof.
  cbv zeta. split.
  - intros n Hn.
    assert (Hsource : exists name,
              In name ["Host"; "x-amz-content-sha256"; "X-Amz-Security-Token";
                       "x-amz-date"]%string /\ lower name = n /\
              existsb (String.eqb (lower name)) excluded = false).
    { cbn [In] in Hn.
      destruct Hn as [<- | [<- | [<- | [<- | []]]]];
        [exists "Host"%string | exists "x-amz-content-sha256"%string
        | exists "x-amz-date"%string | exists "X-Amz-Security-Token"%string];
        cbn [In]; repeat split; tauto. }
    destruct Hsource as (name & Hname & Hlower & Hkept).
    apply canonical_names.
    pose proof (s3_headers_names end_point session_token file_object date name Hname)
      as Hin.
    apply in_map_iff in Hin as ([name' v] & Heq & Hin). cbn [fst] in Heq. subst name'.
    exists (name, v). split; [exact Hin|]. split; [|exact Hlower].
    unfold kept. cbn [fst]. rewrite Hkept. reflexivity.
  - intros n Hn Hin.
    apply canonical_names in Hin as (item & _ & Hkept & Hname).
    unfold kept in Hkept. rewrite Hname in Hkept.
    apply negb_true_iff in Hkept.
    assert (Hexists : existsb (String.eqb n) excluded = true).
    { apply existsb_exists. exists n. split; [exact Hn | apply String.eqb_refl]. }
    congruence.
Qed.

End SignerFurther.

(** ** What the signature does not see *)

Lemma kept_content_type (v : hval) : kept ("Content-Type"%string, v) = false.
Proof. reflexivity. Qed.

Lemma kept_user_agent (v : hval) : kept ("User-Agent"%string, v) = false.
Proof. reflexivity. Qed.

Lemma kept_content_length (v : hval) : kept ("Content-Length"%string, v) = false.
Proof. reflexivity. Qed.

Lemma kept_host (v : hval) : kept ("Host"%string, v) = true.
Proof. reflexivity. Qed.

Lemma kept_content_md5 (v : hval) : kept ("Content-MD5"%string, v) = true.
Proof. reflexivity. Qed.

Lemma kept_sha256 (v : hval) : kept ("x-amz-content-sha256"%string, v) = true.
Proof. reflexivity. Qed.

Lemma kept_token (v : hval) : kept ("X-Amz-Security-Token"%string, v) = true.
Proof. reflexivity. Qed.

Lemma kept_date (v : hval) : kept ("x-amz-date"%string, v) = true.
Proof. reflexivity. Qed.

(** Pushes the filter of the signed headers through the assignments. *)
Ltac push_filter :=
  repeat (rewrite filter_kept_dict_set;
          rewrite ?kept_content_type, ?kept_user_agent, ?kept_content_length,
            ?kept_host, ?kept_content_md5, ?kept_sha256, ?kept_token, ?kept_date).

(** The headers of a request that are signed, from the digest of the
    body. *)
Lemma signed_part_of_headers {env : Env} (end_point session_token : string)
  (file_object : option string) (date : datetime) :
  List.filter kept (s3_headers end_point session_token file_object date)
  = let base := List.filter kept _generate_headers in
    let base := dict_set "Host" (HStr end_point) base in
    let md5sum :=
      if hval_truthy (dict_get "Content-MD5" _generate_headers) then None
      else _md5sum_hash file_object in
    let base :=
      match md5sum with
      | Some (String c rest) => dict_set "Content-MD5" (HStr (String c rest)) base
      | _ => base
      end in
    dict_set "x-amz-date" (HStr (_to_amz_date date))
      (dict_set "X-Amz-Security-Token" (HStr session_token)
         (dict_set "x-amz-content-sha256" (HStr "UNSIGNED-PAYLOAD") base)).
Proof.
  unfold s3_headers. cbv zeta.
  rewrite (dict_get_set_ne "Content-Type" "Content-MD5") by discriminate.
  destruct file_object as [[|c rest]|];
    destruct (if hval_truthy _ then None else _md5sum_hash _) as [[|c' rest']|];
    push_filter; reflexivity.
Qed.

(** The Authorization header of a request signed with a credentials
    record, over the signed part of the headers. *)
Lemma authorization_header_stores {env : Env} (credentials : gmap string pyval)
  (c : storage_credentials) (method object_name : string)
  (file_object : option string) (preload_content : bool) (date : datetime) :
  stores credentials c ->
  authorization_header
    (_s3_request credentials method object_name file_object preload_content date)
  = let entries :=
      canonical_headers_of
        (List.filter kept
           (s3_headers (endpoint c) (session_token c) file_object date)) in
    let scope := scope_of date (region c) "s3" in
    let canonical_request :=
      (method +:+ nl +:+ ("/" +:+ bucket c +:+ "/" +:+ object_name) +:+ nl +:+ nl
       +:+ String.concat nl (map header_line entries) +:+ nl +:+ nl
       +:+ String.concat ";" (dict_keys entries) +:+ nl +:+ "UNSIGNED-PAYLOAD")%string in
    Some (authorization_of (access_key c) scope (String.concat ";" (dict_keys entries))
            (_hmac_hash (signing_key_of (secret_key c) (region c) "s3" date)
               (string_to_sign_of date scope canonical_request) true)).
Proof.
  intros (Hep & Hsec & Hbucket & Hregion & Hak & Hsk & Htoken).
  unfold _s3_request, cred.
  rewrite Hep, Hregion, Hbucket, Hak, Hsk, Hsec, Htoken.
  cbn [as_str encode py_str authorization_header call_headers netloc path].
  rewrite dict_get_http_headers. unfold canonical_request_of.
  rewrite <- canonical_headers_filter. reflexivity.
Qed.

(** X25.  The interpreter does not enter the signature.  The values of
    [USER_AGENTS] (the versions of Python and of OpenSSL, the platform) go
    into the [User-Agent] header only, which is not signed: with a
    credentials record in the cache, the same request gets the same
    Authorization header under another interpreter, and it gets one. *)
Theorem interpreter_not_signed (env : Env) (version platform openssl : string)
  (credentials : gmap string pyval) (c : storage_credentials)
  (method object_name : string)
  (file_object : option string) (preload_content : bool) (date : datetime) :
  stores credentials c ->
  authorization_header
    (_s3_request (env := with_interpreter env version platform openssl)
       credentials method object_name file_object preload_content date)
  = authorization_header
      (_s3_request (env := env)
         credentials method object_name file_object preload_content date)
  /\ authorization_header
       (_s3_request (env := env)
          credentials method object_name file_object preload_content date) <> None.
Proof.
  intros Hstores.
  rewrite !(authorization_header_stores credentials c) by exact Hstores.
  rewrite !signed_part_of_headers. split; [reflexivity|discriminate].
Qed.

(** X26.  The signature sees the body through its digest only.  With a
    credentials record in the cache, the Authorization header of a request
    is a function of what [utils._md5sum_hash] gives for the body: bodies
    with the same digest get the same header, whatever their length, the
    Content-Length header not being signed and the payload hash being the
    sentinel. *)
Theorem signature_sees_digest_only {env : Env} (credentials : gmap string pyval)
  (c : storage_credentials) (method object_name : string)
  (preload_content : bool) (date : datetime) :
  stores credentials c ->
  exists of_digest : option string -> string,
    forall file_object,
      authorization_header
        (_s3_request credentials method object_name file_object preload_content date)
      = Some (of_digest (_md5sum_hash file_object)).
Proof.
  intros Hstores.
  eexists (fun digest => _).
  intros file_object.
  rewrite (authorization_header_stores credentials c) by exact Hstores.
  rewrite signed_part_of_headers. cbv zeta.
  generalize (_md5sum_hash file_object). clear file_object. intros digest.
  reflexivity.
Qed.

#[local] Existing Instance Double.env.

Lemma signature_sees_digest_only_witness :
  exists of_digest : option string -> string,
    forall file_object,
      authorization_header
        (_s3_request (Double.credentials "token" "2021-01-01T01:00:00Z") "PUT"
           "obj.mov" file_object true Double.new_year_2021)
      = Some (of_digest (_md5sum_hash file_object)).
Proof.
  apply (signature_sees_digest_only
           (Double.credentials "token" "2021-01-01T01:00:00Z") (Double.record "token")).
  repeat split; reflexivity.
Defined.

Lemma interpreter_not_signed_witness :
  let credentials := Double.credentials "token" "2021-01-01T01:00:00Z" in
  authorization_header
    (_s3_request (env := with_interpreter Double.env "3.12.1" "linux" "OpenSSL 3.0.13")
       credentials "PUT" "obj.mov" (Some "body") true Double.new_year_2021)
  = authorization_header
      (_s3_request (env := Double.env)
         credentials "PUT" "obj.mov" (Some "body") true Double.new_year_2021)
  /\ authorization_header
       (_s3_request (env := Double.env)
          credentials "PUT" "obj.mov" (Some "body") true Double.new_year_2021) <> None.
Proof.
  apply (interpreter_not_signed Double.env "3.12.1" "linux" "OpenSSL 3.0.13"
           (Double.credentials "token" "2021-01-01T01:00:00Z") (Double.record "token")).
  repeat split; reflexivity.
Defined.
